(** * nc-media-pipeline: the upload API handler (src/API/upload/index.js)

    A shallow embedding of the Azure-Functions handler that brokers uploads
    to Backblaze B2 and sends the SendGrid notification emails, together with
    the properties of its specification that can be stated over it.

    Modelling conventions.
    - JavaScript values that reach the handler are primitives ([jsval]) or
      objects with a fixed set of properties (records whose fields are
      [jsval]; a property that is not present reads as [JUndefined]).
    - A JavaScript string is a Rocq [string]; each character stands for one
      UTF-16 code unit in the range U+0000..U+00FF.
    - Numbers are the integer-valued ones ([Z]), in the range where double
      arithmetic and decimal rendering are exact (clock readings are).
    - The module-level variables [b2Auth], [b2AuthExpiry] and the property
      [global.reviewData] live in a [World]; the clock, the random source and
      the two remote services are oracles of an [Env], read through counters
      kept in the [World]; every remote call is appended to a trace.
    - Logging ([context.log]) has no effect on anything modelled here. *)

From Stdlib Require Import ZArith Lia Ascii String List.
From Stdlib.Strings Require Import Byte.
From stdpp Require Import base option list strings pretty gmap.

Local Open Scope Z_scope.

(** ** Primitive values *)

Inductive jsval : Type :=
| JUndefined
| JNull
| JBool (b : bool)
| JNum (n : Z)
| JStr (s : string).

Global Instance jsval_eq_dec : EqDecision jsval.
Proof. solve_decision. Defined.

(** ToBoolean. *)
Definition truthy (v : jsval) : bool :=
  match v with
  | JUndefined | JNull => false
  | JBool b => b
  | JNum n => negb (n =? 0)
  | JStr s => negb (String.eqb s "")
  end.

(** ToString, as performed by a template literal [`${v}`]. *)
Definition ToString (v : jsval) : string :=
  match v with
  | JUndefined => "undefined"
  | JNull => "null"
  | JBool true => "true"
  | JBool false => "false"
  | JNum n => pretty n
  | JStr s => s
  end.

(** [a || b]. *)
Definition js_or (a b : jsval) : jsval := if truthy a then a else b.

(** [v === 'lit']. *)
Definition strict_eq_str (v : jsval) (lit : string) : bool :=
  match v with
  | JStr s => String.eqb s lit
  | _ => false
  end.

(** ** Exceptions and results *)

(** What the code can throw: a [TypeError] raised by the engine at a member
    access ([access] names the expression; the message text is the engine's),
    or the rejection of an awaited promise of axios or SendGrid. *)
Inductive exn : Type :=
| TypeError (access : string)
| Rejected (message : string).

Inductive result (A : Type) : Type :=
| Ok (a : A)
| Throw (e : exn).
Arguments Ok {A} a.
Arguments Throw {A} e.

(** Calling a String.prototype method on [v]: only a string has it. *)
Definition as_string (access : string) (v : jsval) : result string :=
  match v with
  | JStr s => Ok s
  | _ => Throw (TypeError access)
  end.

(** ** String operations *)

(** [s.split(sep)[0]] for a one-character separator. *)
Fixpoint split_head (sep : ascii) (s : string) : string :=
  match s with
  | EmptyString => EmptyString
  | String c s' => if Ascii.eqb c sep then EmptyString else String c (split_head sep s')
  end.

(** The class [\s] on code units below U+0100: TAB, LF, VT, FF, CR, SPACE
    and NO-BREAK SPACE. *)
Definition is_space (c : ascii) : bool :=
  match N_of_ascii c with
  | 9 | 10 | 11 | 12 | 13 | 32 | 160 => true
  | _ => false
  end%N.

(** [s.replace(/\s+/g, '_')]: every maximal run of white space becomes one
    underscore. [in_run] tells that the previous character was white space. *)
Fixpoint replace_ws_from (in_run : bool) (s : string) : string :=
  match s with
  | EmptyString => EmptyString
  | String c s' =>
      if is_space c
      then (if in_run then replace_ws_from true s'
            else String "_" (replace_ws_from true s'))
      else String c (replace_ws_from false s')
  end.

Definition replace_ws (s : string) : string := replace_ws_from false s.

(** [s.replace(/\n/g, '<br>')]. *)
Fixpoint replace_newlines (s : string) : string :=
  match s with
  | EmptyString => EmptyString
  | String c s' =>
      if Ascii.eqb c "010" then "<br>" +:+ replace_newlines s'
      else String c (replace_newlines s')
  end.

(** ** Hexadecimal rendering of random bytes *)

Definition hex_digit (n : N) : ascii :=
  match n with
  | 0 => "0" | 1 => "1" | 2 => "2" | 3 => "3" | 4 => "4" | 5 => "5"
  | 6 => "6" | 7 => "7" | 8 => "8" | 9 => "9" | 10 => "a" | 11 => "b"
  | 12 => "c" | 13 => "d" | 14 => "e" | _ => "f"
  end%N%char.

(** [buf.toString('hex')]. *)
Fixpoint hex_encode (bs : list byte) : string :=
  match bs with
  | [] => EmptyString
  | b :: bs' =>
      let n := Byte.to_N b in
      String (hex_digit (n / 16)%N) (String (hex_digit (n mod 16)%N) (hex_encode bs'))
  end.

Definition is_lower_hex (c : ascii) : bool :=
  let n := N_of_ascii c in
  ((48 <=? n) && (n <=? 57) || (97 <=? n) && (n <=? 102))%N.

Fixpoint string_forall (p : ascii -> bool) (s : string) : bool :=
  match s with
  | EmptyString => true
  | String c s' => p c && string_forall p s'
  end.

(** ** Basic-auth credentials: UTF-8 and base64 *)

(** [Buffer.from(s)]: the UTF-8 bytes of a string of code units below U+0100. *)
Fixpoint utf8 (s : string) : list N :=
  match s with
  | EmptyString => []
  | String c s' =>
      let n := N_of_ascii c in
      if (n <? 128)%N then n :: utf8 s'
      else (192 + n / 64)%N :: (128 + n mod 64)%N :: utf8 s'
  end.

Definition b64_char (n : N) : ascii :=
  ascii_of_N
    (if n <? 26 then 65 + n
     else if n <? 52 then 71 + n
     else if n <? 62 then n - 4
     else if n =? 62 then 43 else 47)%N.

(** [buf.toString('base64')]. *)
Fixpoint base64 (bs : list N) : string :=
  match bs with
  | [] => EmptyString
  | [a] =>
      String (b64_char (a / 4)) (String (b64_char (a mod 4 * 16)) "==")%N
  | [a; b] =>
      String (b64_char (a / 4))
        (String (b64_char (a mod 4 * 16 + b / 16))
           (String (b64_char (b mod 16 * 4)) "="))%N
  | a :: b :: c :: rest =>
      String (b64_char (a / 4))
        (String (b64_char (a mod 4 * 16 + b / 16))
           (String (b64_char (b mod 16 * 4 + c / 64))
              (String (b64_char (c mod 64)) (base64 rest))))%N
  end.

(** ** Objects received from outside *)

(** A value where the code expects an object: either a primitive or an
    object carrying the properties [A]. *)
Inductive jsdata (A : Type) : Type :=
| Prim (v : jsval)
| Obj (o : A).
Arguments Prim {A} v.
Arguments Obj {A} o.

Definition data_truthy {A} (d : jsdata A) : bool :=
  match d with
  | Prim v => truthy v
  | Obj _ => true
  end.

(** [d.p]: reading a property of [undefined] or [null] throws; any other
    primitive has none of the properties read by this program. *)
Definition prop {A} (access : string) (p : A -> jsval) (d : jsdata A) : result jsval :=
  match d with
  | Obj o => Ok (p o)
  | Prim JUndefined | Prim JNull => Throw (TypeError access)
  | Prim _ => Ok JUndefined
  end.

(** UploadMetadata, both variants in one object. *)
Record Metadata : Type := {
  uploadType : jsval;
  editor : jsval;
  clientName : jsval;
  shootDate : jsval;
  footageType : jsval;
  musicType : jsval;
  instructions : jsval;
  projectName : jsval;
  editorName : jsval;
  description : jsval
}.

(** UploadedFileRef. *)
Record FileRef : Type := {
  file_fileName : jsval;
  file_filePath : jsval;
  file_size : jsval
}.

(** [req.body]; [files] is [None] when the property is not an array. *)
Record Body : Type := {
  fileName : jsval;
  fileSize : jsval;
  metadata : jsdata Metadata;
  files : option (list (jsdata FileRef))
}.

(** [req]; [body] is [None] when it is [undefined] or [null]. *)
Record Request : Type := { body : option Body }.

(** [response.data] of [b2_authorize_account]. *)
Record B2Authorization : Type := {
  apiUrl : jsval;
  authorizationToken : jsval
}.

(** [response.data] of [b2_get_upload_url]. *)
Record UploadUrlData : Type := {
  uploadUrl : jsval;
  upload_authorizationToken : jsval
}.

(** ** Configuration: [process.env] *)

Record ProcessEnv : Type := {
  env_B2_KEY_ID : option string;
  env_B2_APP_KEY : option string;
  env_B2_BUCKET_ID : option string;
  env_B2_BUCKET_NAME : option string;
  env_B2_ENDPOINT : option string;
  env_BOSS_EMAIL : option string;
  env_FROM_EMAIL : option string;
  env_APP_URL : option string
}.

Definition env_val (o : option string) : jsval :=
  match o with
  | Some s => JStr s
  | None => JUndefined
  end.

Definition B2_KEY_ID (p : ProcessEnv) : jsval := env_val (env_B2_KEY_ID p).
Definition B2_APP_KEY (p : ProcessEnv) : jsval := env_val (env_B2_APP_KEY p).
Definition B2_BUCKET_ID (p : ProcessEnv) : jsval := env_val (env_B2_BUCKET_ID p).
Definition B2_BUCKET_NAME (p : ProcessEnv) : jsval :=
  js_or (env_val (env_B2_BUCKET_NAME p)) (JStr "nuculture-media").
Definition B2_ENDPOINT (p : ProcessEnv) : jsval :=
  js_or (env_val (env_B2_ENDPOINT p)) (JStr "https://api.backblazeb2.com").
Definition BOSS_EMAIL (p : ProcessEnv) : jsval :=
  js_or (env_val (env_BOSS_EMAIL p)) (JStr "boss@nuculture.com").
Definition FROM_EMAIL (p : ProcessEnv) : jsval :=
  js_or (env_val (env_FROM_EMAIL p)) (JStr "workflow@nuculture.com").
Definition APP_URL (p : ProcessEnv) : jsval :=
  js_or (env_val (env_APP_URL p)) (JStr "https://your-app.azurestaticapps.net").

(** ** Emails *)

(** One entry of [downloadLinks]. *)
Record Link : Type := {
  link_name : jsval;
  link_url : string;
  link_size : string
}.

(** One of the two action links of the review email:
    [`${APP_URL}/api/review?action=${action}&id=${id}&project=${encodeURIComponent(project)}`]. *)
Record ReviewLink : Type := {
  rl_base : string;
  rl_action : string;
  rl_id : string;
  rl_project : jsval
}.

(** [emailHtml]: the template that was instantiated and the value of each
    of its holes, in the order of the template. The fixed text of the two
    templates is not repeated here. *)
Inductive html_doc : Type :=
| EditorAssignmentHtml
    (hi_name : string) (intro_client : string) (client : string)
    (shoot_date : string) (footage : string) (music : option string)
    (instructions_html : string) (links : list Link) (upload_href : string)
| ReviewRequestHtml
    (project : string) (client : string) (editor_name : string)
    (submitted : Z) (notes_html : option string) (links : list Link)
    (approve : ReviewLink) (revise : ReviewLink).

(** [msg], as handed to [sgMail.send]. *)
Record Message : Type := {
  msg_to : jsval;
  msg_from : jsval;
  msg_subject : string;
  msg_html : html_doc
}.

(** ** Responses *)

Inductive error_text : Type :=
| Literal (s : string)
| MessageOf (e : exn).

Inductive resbody : Type :=
| PreparedUpload (r_uploadUrl r_authToken : jsval) (r_fileId r_filePath : string)
| Completed (success : bool) (message : string)
| Failure (error : error_text).

(** [context.res]. *)
Record response : Type := { status : Z; resbody_of : resbody }.

(** ** The process state and its environment *)

(** A remote call, as issued. [EvSend] also records whether SendGrid
    accepted the message. *)
Inductive event : Type :=
| EvAuthorize (url : string) (authorization_header : string)
| EvGetUploadUrl (url : string) (bucketId : jsval) (authorization_header : jsval)
| EvSend (msg : Message) (accepted : bool).

(** A value of [global.reviewData]. *)
Record ReviewEntry : Type := {
  re_metadata : jsdata Metadata;
  re_files : option (list (jsdata FileRef));
  re_timestamp : Z
}.

Record World : Type := {
  b2Auth : jsdata B2Authorization;
  b2AuthExpiry : Z;
  reviewData : option (gmap string ReviewEntry);
  ticks : nat;
  drawn : nat;
  trace : list event
}.

(** The state of a freshly loaded module. *)
Definition initial_world : World :=
  {| b2Auth := Prim JNull; b2AuthExpiry := 0; reviewData := None;
     ticks := 0; drawn := 0; trace := [] |}.

(** What the process cannot control. [clock n] is the [n]-th reading of the
    system clock and [entropy n] the [n]-th byte handed out by
    [crypto.randomBytes]; the outcome of a remote call is indexed by the
    number of remote calls made before it. [scaled_size] is the value of
    lines 317-318 of [formatFileSize], which the engine computes in IEEE-754
    doubles ([Math.log], [Math.pow], [Math.round]). *)
Record Env : Type := {
  process_env : ProcessEnv;
  clock : nat -> Z;
  entropy : nat -> byte;
  b2_authorize_account : nat -> result (jsdata B2Authorization);
  b2_get_upload_url : nat -> result (jsdata UploadUrlData);
  sendgrid_send : nat -> result unit;
  scaled_size : jsval -> string
}.

Definition set_b2Auth (a : jsdata B2Authorization) (w : World) : World :=
  {| b2Auth := a; b2AuthExpiry := b2AuthExpiry w; reviewData := reviewData w;
     ticks := ticks w; drawn := drawn w; trace := trace w |}.

Definition set_b2AuthExpiry (t : Z) (w : World) : World :=
  {| b2Auth := b2Auth w; b2AuthExpiry := t; reviewData := reviewData w;
     ticks := ticks w; drawn := drawn w; trace := trace w |}.

Definition set_reviewData (r : option (gmap string ReviewEntry)) (w : World) : World :=
  {| b2Auth := b2Auth w; b2AuthExpiry := b2AuthExpiry w; reviewData := r;
     ticks := ticks w; drawn := drawn w; trace := trace w |}.

Definition tick (w : World) : World :=
  {| b2Auth := b2Auth w; b2AuthExpiry := b2AuthExpiry w; reviewData := reviewData w;
     ticks := S (ticks w); drawn := drawn w; trace := trace w |}.

Definition draw (n : nat) (w : World) : World :=
  {| b2Auth := b2Auth w; b2AuthExpiry := b2AuthExpiry w; reviewData := reviewData w;
     ticks := ticks w; drawn := (drawn w + n)%nat; trace := trace w |}.

Definition record (ev : event) (w : World) : World :=
  {| b2Auth := b2Auth w; b2AuthExpiry := b2AuthExpiry w; reviewData := reviewData w;
     ticks := ticks w; drawn := drawn w; trace := trace w ++ [ev] |}.

(** ** Computations: state and exceptions *)

Definition M (A : Type) : Type := World -> result A * World.

Definition ret {A} (a : A) : M A := fun w => (Ok a, w).

Definition bind {A B} (m : M A) (k : A -> M B) : M B :=
  fun w =>
    match m w with
    | (Ok a, w') => k a w'
    | (Throw e, w') => (Throw e, w')
    end.

Definition lift {A} (r : result A) : M A := fun w => (r, w).

Definition gets {A} (f : World -> A) : M A := fun w => (Ok (f w), w).

Definition modify (f : World -> World) : M unit := fun w => (Ok tt, f w).

Declare Scope js_scope.
Delimit Scope js_scope with js.
Notation "x <- m ;; k" := (bind m (fun x => k))
  (at level 100, m at next level, right associativity) : js_scope.
Notation "m ;;; k" := (bind m (fun _ => k))
  (at level 100, right associativity) : js_scope.

(** The same sequencing for code without effects. *)
Definition rbind {A B} (r : result A) (k : A -> result B) : result B :=
  match r with
  | Ok a => k a
  | Throw e => Throw e
  end.

(** [xs.map(f)] when [f] may throw: the first exception ends the loop. *)
Fixpoint map_result {A B} (f : A -> result B) (xs : list A) : result (list B) :=
  match xs with
  | [] => Ok []
  | x :: xs' =>
      rbind (f x) (fun y => rbind (map_result f xs') (fun ys => Ok (y :: ys)))
  end.

Section Program.

Context (env : Env).

Let penv : ProcessEnv := process_env env.

(** *** Primitive effects *)

(** [Date.now()], and the clock reading of [new Date()]. *)
Definition Date_now : M Z :=
  fun w => (Ok (clock env (ticks w)), tick w).

(** [crypto.randomBytes(n)]. *)
Definition randomBytes (n : nat) : M (list byte) :=
  fun w => (Ok (map (entropy env) (seq (drawn w) n)), draw n w).

(** [(await axios.get(url, {headers: {Authorization}})).data]. *)
Definition axios_get_authorize (url authorization : string)
  : M (jsdata B2Authorization) :=
  fun w =>
    (b2_authorize_account env (length (trace w)),
     record (EvAuthorize url authorization) w).

(** [(await axios.post(url, {bucketId}, {headers: {Authorization, ...}})).data]. *)
Definition axios_post_upload_url (url : string) (bucketId authorization : jsval)
  : M (jsdata UploadUrlData) :=
  fun w =>
    (b2_get_upload_url env (length (trace w)),
     record (EvGetUploadUrl url bucketId authorization) w).

(** [await sgMail.send(msg)]. *)
Definition sgMail_send (msg : Message) : M unit :=
  fun w =>
    match sendgrid_send env (length (trace w)) with
    | Ok u => (Ok u, record (EvSend msg true) w)
    | Throw e => (Throw e, record (EvSend msg false) w)
    end.

(** *** formatFileSize (lines 314-319) *)

Definition formatFileSize (bytes : jsval) : string :=
  if negb (truthy bytes) then "0 Bytes" else scaled_size env bytes.

(** *** authorizeB2 (lines 117-136) *)

Definition authorizeB2 : M (jsdata B2Authorization) :=
  (cached <- gets b2Auth ;;
   fresh <- (if data_truthy cached
             then (now <- Date_now ;;
                   expiry <- gets b2AuthExpiry ;;
                   ret (now <? expiry))
             else ret false) ;;
   if fresh : bool then gets b2Auth
   else
     let authString :=
       base64 (utf8 (ToString (B2_KEY_ID penv) +:+ ":" +:+ ToString (B2_APP_KEY penv))) in
     data <- axios_get_authorize
               (ToString (B2_ENDPOINT penv) +:+ "/b2api/v2/b2_authorize_account")
               ("Basic " +:+ authString) ;;
     modify (set_b2Auth data) ;;;
     now <- Date_now ;;
     modify (set_b2AuthExpiry (now + 23 * 60 * 60 * 1000)) ;;;
     gets b2Auth)%js.

(** *** handlePrepareUpload (lines 52-98) *)

(** [const { fileName, fileSize, metadata } = req.body] and its sibling in
    [handleUploadComplete]: destructuring [undefined] or [null] throws. *)
Definition destructure_body (req : Request) : result Body :=
  match body req with
  | Some b => Ok b
  | None => Throw (TypeError "req.body")
  end.

(** Lines 64-70: the storage path. *)
Definition planPath (timestamp : Z) (fileName : jsval) (metadata : jsdata Metadata)
  : result string :=
  rbind (prop "metadata.uploadType" uploadType metadata) (fun ut =>
  if strict_eq_str ut "raw" then
    rbind (prop "metadata.editor" editor metadata) (fun ed =>
    rbind (as_string "metadata.editor.split" ed) (fun ed_s =>
    let editorEmail := split_head "@" ed_s in
    rbind (prop "metadata.clientName" clientName metadata) (fun cn =>
    rbind (as_string "metadata.clientName.replace" cn) (fun cn_s =>
    Ok ("raw_uploads/" +:+ editorEmail +:+ "/" +:+ ToString (JNum timestamp) +:+ "_"
        +:+ replace_ws cn_s +:+ "/" +:+ ToString fileName)))))
  else
    rbind (prop "metadata.projectName" projectName metadata) (fun pn =>
    rbind (as_string "metadata.projectName.replace" pn) (fun pn_s =>
    Ok ("edited_uploads/review/" +:+ ToString (JNum timestamp) +:+ "_"
        +:+ replace_ws pn_s +:+ "/" +:+ ToString fileName)))).

Definition handlePrepareUpload (req : Request) : M response :=
  (b <- lift (destructure_body req) ;;
   auth <- authorizeB2 ;;
   timestamp <- Date_now ;;
   suffix <- randomBytes 4 ;;
   let fileId := ToString (JNum timestamp) +:+ "_" +:+ hex_encode suffix in
   filePath <- lift (planPath timestamp (fileName b) (metadata b)) ;;
   api <- lift (prop "auth.apiUrl" apiUrl auth) ;;
   token <- lift (prop "auth.authorizationToken" authorizationToken auth) ;;
   uploadData <- axios_post_upload_url
                   (ToString api +:+ "/b2api/v2/b2_get_upload_url")
                   (B2_BUCKET_ID penv) token ;;
   url <- lift (prop "uploadData.uploadUrl" uploadUrl uploadData) ;;
   authToken <- lift (prop "uploadData.authorizationToken"
                        upload_authorizationToken uploadData) ;;
   ret {| status := 200;
          resbody_of := PreparedUpload url authToken fileId filePath |})%js.

(** *** The download links of both emails (lines 143-147, 218-222) *)

Definition download_link (file : jsdata FileRef) : result Link :=
  rbind (prop "file.fileName" file_fileName file) (fun name =>
  rbind (prop "file.filePath" file_filePath file) (fun path =>
  rbind (prop "file.size" file_size file) (fun size =>
  Ok {| link_name := name;
        link_url := "https://f003.backblazeb2.com/file/"
                    +:+ ToString (B2_BUCKET_NAME penv) +:+ "/" +:+ ToString path;
        link_size := formatFileSize size |}))).

Definition downloadLinks (files : option (list (jsdata FileRef))) : result (list Link) :=
  match files with
  | Some l => map_result download_link l
  | None => Throw (TypeError "files.map")
  end.

(** *** sendEditorEmail (lines 138-214) *)

(** Lines 139-211: everything up to the message, which has no effect. *)
Definition editor_message (metadata : jsdata Metadata)
    (files : option (list (jsdata FileRef))) : result Message :=
  rbind (prop "metadata.editor" editor metadata) (fun editorEmail =>
  rbind (as_string "editorEmail.split" editorEmail) (fun ed_s =>
  let editorName := split_head "@" ed_s in
  rbind (downloadLinks files) (fun links =>
  rbind (prop "metadata.clientName" clientName metadata) (fun cn =>
  rbind (prop "metadata.shootDate" shootDate metadata) (fun sd =>
  rbind (prop "metadata.footageType" footageType metadata) (fun ft =>
  rbind (prop "metadata.musicType" musicType metadata) (fun mt =>
  rbind (prop "metadata.instructions" instructions metadata) (fun ins =>
  rbind (as_string "metadata.instructions.replace" ins) (fun ins_s =>
  let emailHtml :=
    EditorAssignmentHtml editorName (ToString cn) (ToString cn) (ToString sd)
      (ToString ft) (if truthy mt then Some (ToString mt) else None)
      (replace_newlines ins_s) links (ToString (APP_URL penv)) in
  Ok {| msg_to := editorEmail;
        msg_from := FROM_EMAIL penv;
        msg_subject := "New Footage: " +:+ ToString cn +:+ " - " +:+ ToString ft;
        msg_html := emailHtml |}))))))))).

Definition sendEditorEmail (metadata : jsdata Metadata)
    (files : option (list (jsdata FileRef))) : M unit :=
  (msg <- lift (editor_message metadata files) ;;
   sgMail_send msg)%js.

(** *** sendReviewEmail (lines 216-312) *)

(** Lines 227-300: the template and the message, given the links, the
    review id and the clock reading of [new Date()]. *)
Definition review_message (metadata : jsdata Metadata) (links : list Link)
    (reviewId : string) (submitted : Z) : result Message :=
  rbind (prop "metadata.projectName" projectName metadata) (fun pn =>
  rbind (prop "metadata.clientName" clientName metadata) (fun cn =>
  rbind (prop "metadata.editorName" editorName metadata) (fun en =>
  rbind (prop "metadata.description" description metadata) (fun de =>
  rbind (if truthy de
         then rbind (as_string "metadata.description.replace" de)
                (fun de_s => Ok (Some (replace_newlines de_s)))
         else Ok None) (fun notes =>
  let action_link (action : string) :=
    {| rl_base := ToString (APP_URL penv); rl_action := action;
       rl_id := reviewId; rl_project := pn |} in
  let emailHtml :=
    ReviewRequestHtml (ToString pn) (ToString cn) (ToString en) submitted notes
      links (action_link "approve") (action_link "revise") in
  Ok {| msg_to := BOSS_EMAIL penv;
        msg_from := FROM_EMAIL penv;
        msg_subject := "Review Required: " +:+ ToString pn;
        msg_html := emailHtml |}))))).

Definition sendReviewEmail (metadata : jsdata Metadata)
    (files : option (list (jsdata FileRef))) : M unit :=
  (links <- lift (downloadLinks files) ;;
   bytes <- randomBytes 16 ;;
   let reviewId := hex_encode bytes in
   (* the template reads [metadata.projectName] before it evaluates [new Date()] *)
   lift (prop "metadata.projectName" projectName metadata) ;;;
   submitted <- Date_now ;;
   msg <- lift (review_message metadata links reviewId submitted) ;;
   sgMail_send msg ;;;
   store <- gets reviewData ;;
   modify (set_reviewData (Some (default ∅ store))) ;;;
   timestamp <- Date_now ;;
   store' <- gets reviewData ;;
   modify (set_reviewData
             (Some (<[reviewId :=
                        {| re_metadata := metadata;
                           re_files := files;
                           re_timestamp := timestamp |}]> (default ∅ store')))))%js.

(** *** handleUploadComplete (lines 100-115) *)

Definition handleUploadComplete (req : Request) : M response :=
  (b <- lift (destructure_body req) ;;
   ut <- lift (prop "metadata.uploadType" uploadType (metadata b)) ;;
   (if strict_eq_str ut "raw"
    then sendEditorEmail (metadata b) (files b)
    else sendReviewEmail (metadata b) (files b)) ;;;
   ret {| status := 200;
          resbody_of := Completed true "Notifications sent" |})%js.

(** *** The exported function (lines 24-50) *)

(** [action_binding] is [context.bindingData.action]; the result is the
    value left in [context.res]. *)
Definition module_exports (action_binding : jsval) (req : Request)
  : World -> response * World :=
  fun w =>
    let action := js_or action_binding (JStr "") in
    let selected : M response :=
      if strict_eq_str action "prepare" then handlePrepareUpload req
      else if strict_eq_str action "complete" then handleUploadComplete req
      else ret {| status := 400; resbody_of := Failure (Literal "Invalid action") |} in
    match selected w with
    | (Ok res, w') => (res, w')
    | (Throw error, w') =>
        ({| status := 500; resbody_of := Failure (MessageOf error) |}, w')
    end.

End Program.

(** ** Vocabulary of the statements *)

(** The value of a lower-case hexadecimal digit. *)
Definition hex_value (c : ascii) : N :=
  let n := N_of_ascii c in
  (if n <? 58 then n - 48 else n - 87)%N.

(** The two notification flows, told apart by the template of the email. *)
Inductive flow : Type :=
| EditorAssignment
| ReviewRequest.

Definition flow_of_html (h : html_doc) : flow :=
  match h with
  | EditorAssignmentHtml _ _ _ _ _ _ _ _ _ => EditorAssignment
  | ReviewRequestHtml _ _ _ _ _ _ _ _ => ReviewRequest
  end.

(** The remote calls made between two states of the same run. *)
Definition new_events (w w' : World) : list event :=
  drop (length (trace w)) (trace w').

(** What [complete] answers on success. *)
Definition notifications_sent : response :=
  {| status := 200; resbody_of := Completed true "Notifications sent" |}.

(** The call of line 126, with its basic-auth header (line 124). *)
Definition authorize_call (env : Env) : event :=
  EvAuthorize
    (ToString (B2_ENDPOINT (process_env env)) +:+ "/b2api/v2/b2_authorize_account")
    ("Basic " +:+ base64 (utf8 (ToString (B2_KEY_ID (process_env env)) +:+ ":"
                                +:+ ToString (B2_APP_KEY (process_env env))))).

(** 23 hours, in milliseconds. *)
Definition validity_window : Z := 23 * 60 * 60 * 1000.

Definition mk_request (fn fs : jsval) (md : jsdata Metadata)
    (fl : option (list (jsdata FileRef))) : Request :=
  {| body := Some {| fileName := fn; fileSize := fs; metadata := md; files := fl |} |}.

Definition internal_error (e : exn) : response :=
  {| status := 500; resbody_of := Failure (MessageOf e) |}.

(** ** Concrete environments and requests *)

Definition demo_process_env : ProcessEnv :=
  {| env_B2_KEY_ID := Some "user"; env_B2_APP_KEY := Some "pass";
     env_B2_BUCKET_ID := Some "bucket-1"; env_B2_BUCKET_NAME := None;
     env_B2_ENDPOINT := None; env_BOSS_EMAIL := None;
     env_FROM_EMAIL := None; env_APP_URL := None |}.

Definition demo_authorization : B2Authorization :=
  {| apiUrl := JStr "https://api001.backblazeb2.com";
     authorizationToken := JStr "4_001_token" |}.

Definition demo_upload_data : UploadUrlData :=
  {| uploadUrl := JStr "https://pod-000.backblaze.com/b2api/v2/b2_upload_file/x";
     upload_authorizationToken := JStr "4_001_upload" |}.

Definition demo_entropy (n : nat) : byte :=
  match n with
  | 0%nat => x0a | 1%nat => x1b | 2%nat => xc3 | 3%nat => xd4 | _ => xee
  end.

(** Every remote call succeeds; the clock advances by one second per
    reading. [scaled_size] renders sizes below 1024, the only ones used with
    this environment. *)
Definition demo_env : Env :=
  {| process_env := demo_process_env;
     clock := fun n => 1700000000000 + 1000 * Z.of_nat n;
     entropy := demo_entropy;
     b2_authorize_account := fun _ => Ok (Obj demo_authorization);
     b2_get_upload_url := fun _ => Ok (Obj demo_upload_data);
     sendgrid_send := fun _ => Ok tt;
     scaled_size := fun v => ToString v +:+ " Bytes" |}.

(** As [demo_env], but SendGrid rejects every message. *)
Definition rejecting_mail_env : Env :=
  {| process_env := demo_process_env;
     clock := clock demo_env;
     entropy := demo_entropy;
     b2_authorize_account := b2_authorize_account demo_env;
     b2_get_upload_url := b2_get_upload_url demo_env;
     sendgrid_send := fun _ => Throw (Rejected "Unauthorized");
     scaled_size := scaled_size demo_env |}.

(** As [demo_env], but the random source hands out the same byte for ever. *)
Definition constant_entropy_env : Env :=
  {| process_env := demo_process_env;
     clock := clock demo_env;
     entropy := fun _ => x00;
     b2_authorize_account := b2_authorize_account demo_env;
     b2_get_upload_url := b2_get_upload_url demo_env;
     sendgrid_send := sendgrid_send demo_env;
     scaled_size := scaled_size demo_env |}.

Definition no_metadata : Metadata :=
  {| uploadType := JUndefined; editor := JUndefined; clientName := JUndefined;
     shootDate := JUndefined; footageType := JUndefined; musicType := JUndefined;
     instructions := JUndefined; projectName := JUndefined;
     editorName := JUndefined; description := JUndefined |}.

Definition raw_metadata : Metadata :=
  {| uploadType := JStr "raw"; editor := JStr "jane@x.com";
     clientName := JStr "Acme Co"; shootDate := JStr "2024-05-01";
     footageType := JStr "Wedding"; musicType := JUndefined;
     instructions := JStr "Cut to 3 minutes"; projectName := JUndefined;
     editorName := JUndefined; description := JUndefined |}.

Definition edited_metadata : Metadata :=
  {| uploadType := JStr "edited"; editor := JUndefined;
     clientName := JStr "Acme Co"; shootDate := JUndefined;
     footageType := JUndefined; musicType := JUndefined;
     instructions := JUndefined; projectName := JStr "Spring Promo";
     editorName := JStr "Jane"; description := JUndefined |}.

(** A raw-footage request whose [editor] is absent. *)
Definition raw_metadata_no_editor : Metadata :=
  {| uploadType := JStr "raw"; editor := JUndefined;
     clientName := JStr "Acme Co"; shootDate := JStr "2024-05-01";
     footageType := JStr "Wedding"; musicType := JUndefined;
     instructions := JStr "Cut to 3 minutes"; projectName := JUndefined;
     editorName := JUndefined; description := JUndefined |}.

Definition demo_files : option (list (jsdata FileRef)) :=
  Some [Obj {| file_fileName := JStr "clip.mp4";
               file_filePath := JStr "raw_uploads/jane/1_Acme_Co/clip.mp4";
               file_size := JNum 512 |}].

Definition request_with (m : Metadata) : Request :=
  {| body := Some {| fileName := JStr "clip.mp4"; fileSize := JNum 512;
                     metadata := Obj m; files := demo_files |} |}.

(** ** Vocabulary of the further properties *)


(** [undefined] or [null]: the values whose properties cannot be read. *)
Definition nullish {A} (d : jsdata A) : bool :=
  match d with
  | Prim JUndefined | Prim JNull => true
  | _ => false
  end.

(** [d.p] for a [d] that is not nullish. *)
Definition read {A} (p : A -> jsval) (d : jsdata A) : jsval :=
  match d with
  | Obj o => p o
  | Prim _ => JUndefined
  end.

(** [files] is an array without [undefined] or [null] entries. *)
Definition files_ok (fl : option (list (jsdata FileRef))) : bool :=
  match fl with
  | Some l => forallb (fun f => negb (nullish f)) l
  | None => false
  end.

(** The entry of [downloadLinks] for a file that is not nullish. *)
Definition link_of (env : Env) (file : jsdata FileRef) : Link :=
  {| link_name := read file_fileName file;
     link_url := "https://f003.backblazeb2.com/file/"
                 +:+ ToString (B2_BUCKET_NAME (process_env env)) +:+ "/"
                 +:+ ToString (read file_filePath file);
     link_size := formatFileSize env (read file_size file) |}.



Definition is_send (ev : event) : bool :=
  match ev with
  | EvSend _ _ => true
  | _ => false
  end.

(** The request of lines 73-82 for an authorization [auth]. *)
Definition upload_url_call (env : Env) (auth : jsdata B2Authorization) : event :=
  EvGetUploadUrl
    (ToString (read apiUrl auth) +:+ "/b2api/v2/b2_get_upload_url")
    (B2_BUCKET_ID (process_env env))
    (read authorizationToken auth).

(** [n] calls of [authorizeB2] in a row: their results, and the last state. *)
Fixpoint authorize_repeatedly (env : Env) (n : nat) (w : World)
  : list (result (jsdata B2Authorization)) * World :=
  match n with
  | O => ([], w)
  | S k =>
      let (r, w1) := authorizeB2 env w in
      let (rs, w2) := authorize_repeatedly env k w1 in
      (r :: rs, w2)
  end.

(** One process serving requests one after the other: each is the action
    bound by the runtime and the request. *)
Fixpoint serve (env : Env) (reqs : list (jsval * Request)) (w : World)
  : list response * World :=
  match reqs with
  | [] => ([], w)
  | (action, req) :: rest =>
      let (res, w1) := module_exports env action req w in
      let (ress, w2) := serve env rest w1 in
      (res :: ress, w2)
  end.

(** The keys of [global.reviewData]. *)
Definition review_keys (w : World) : list string :=
  match reviewData w with
  | Some store => (map_to_list store).*1
  | None => []
  end.

(** [global.reviewData[k]]. *)
Definition review_lookup (w : World) (k : string) : option ReviewEntry :=
  match reviewData w with
  | Some store => store !! k
  | None => None
  end.

Definition no_char (c : ascii) (s : string) : bool :=
  string_forall (fun x => negb (Ascii.eqb x c)) s.

Definition no_space (s : string) : bool :=
  string_forall (fun c => negb (is_space c)) s.

(** What holds of the state of a process at any moment: the keys of the
    review map are review identifiers, the expiry is 0 or 23 hours after a
    clock reading, and the cache holds [null] or an answer of the provider. *)
Definition state_invariant (env : Env) (w : World) : Prop :=
  (forall k, is_Some (review_lookup w k) ->
             String.length k = 32%nat /\ string_forall is_lower_hex k = true)
  /\ (b2AuthExpiry w = 0
      \/ exists n, b2AuthExpiry w = clock env n + validity_window)
  /\ (b2Auth w = Prim JNull
      \/ exists k, b2_authorize_account env k = Ok (b2Auth w)).

(** ** Proof automation *)

(** Case analysis on every step of a chain of [rbind]s in [H]. *)
Ltac rbind_inv H :=
  unfold rbind in H; simpl in H;
  repeat match type of H with
         | context [match ?x with _ => _ end] =>
             let E := fresh "E" in destruct x eqn:E; simpl in H; try discriminate H
         end.

(** * Properties *)

(** ** Values and strings *)

Lemma strict_eq_str_true v lit : strict_eq_str v lit = true <-> v = JStr lit.
Proof.
  destruct v; simpl; try (split; [discriminate | congruence]).
  rewrite String.eqb_eq. split; congruence.
Qed.

Lemma strict_eq_str_false v lit : strict_eq_str v lit = false <-> v <> JStr lit.
Proof.
  rewrite <- strict_eq_str_true. destruct (strict_eq_str v lit); split; congruence.
Qed.

(** [action || ''] compares with a non-empty literal as [action] does. *)
Lemma strict_eq_str_or_empty v lit :
  lit <> EmptyString ->
  strict_eq_str (js_or v (JStr "")) lit = strict_eq_str v lit.
Proof.
  intros Hlit. unfold js_or.
  destruct (truthy v) eqn:Hv; [reflexivity |].
  assert (Hempty : strict_eq_str (JStr "") lit = false).
  { apply strict_eq_str_false. congruence. }
  rewrite Hempty. symmetry. apply strict_eq_str_false.
  intros ->. simpl in Hv. destruct lit; [congruence | discriminate].
Qed.

Lemma hex_value_digit n : (n < 16)%N -> hex_value (hex_digit n) = n.
Proof.
  intros H. destruct n as [|p]; [reflexivity |].
  do 4 (destruct p as [p|p|]; try reflexivity); lia.
Qed.

Lemma hex_digit_lower n : is_lower_hex (hex_digit n) = true.
Proof.
  destruct n as [|p]; [reflexivity |].
  do 4 (destruct p as [p|p|]; try reflexivity).
Qed.

Lemma hex_digit_inj n m :
  (n < 16)%N -> (m < 16)%N -> hex_digit n = hex_digit m -> n = m.
Proof.
  intros Hn Hm E.
  rewrite <- (hex_value_digit n Hn), <- (hex_value_digit m Hm). congruence.
Qed.

Lemma hex_encode_length bs : String.length (hex_encode bs) = (2 * length bs)%nat.
Proof. induction bs as [|b bs IH]; simpl; [reflexivity | rewrite IH; lia]. Qed.

Lemma hex_encode_lower bs : string_forall is_lower_hex (hex_encode bs) = true.
Proof.
  induction bs as [|b bs IH]; simpl; [reflexivity |].
  rewrite !hex_digit_lower, IH. reflexivity.
Qed.

Lemma byte_hex_inj (a b : byte) :
  hex_digit (Byte.to_N a / 16) = hex_digit (Byte.to_N b / 16) ->
  hex_digit (Byte.to_N a mod 16) = hex_digit (Byte.to_N b mod 16) ->
  a = b.
Proof.
  intros Hhi Hlo.
  pose proof (Byte.to_N_bounded a) as Ha. pose proof (Byte.to_N_bounded b) as Hb.
  apply hex_digit_inj in Hhi;
    [| apply N.Div0.div_lt_upper_bound; lia | apply N.Div0.div_lt_upper_bound; lia].
  apply hex_digit_inj in Hlo; [| apply N.mod_lt; lia | apply N.mod_lt; lia].
  assert (E : Byte.to_N a = Byte.to_N b).
  { rewrite (N.div_mod (Byte.to_N a) 16), (N.div_mod (Byte.to_N b) 16) by lia.
    congruence. }
  apply (f_equal Byte.of_N) in E. rewrite !Byte.of_to_N in E. congruence.
Qed.

(** Hex rendering loses nothing: equal renderings come from equal bytes. *)
Lemma hex_encode_inj bs bs' : hex_encode bs = hex_encode bs' -> bs = bs'.
Proof.
  revert bs'. induction bs as [|b bs IH]; intros [|b' bs'] E; simpl in E;
    try discriminate; [reflexivity |].
  injection E as E1 E2 E3.
  f_equal; [apply byte_hex_inj; congruence | apply IH; assumption].
Qed.

Lemma replace_ws_from_no_space in_run s :
  string_forall (fun c => negb (is_space c)) (replace_ws_from in_run s) = true.
Proof.
  revert in_run. induction s as [|c s IH]; intros in_run; simpl; [reflexivity |].
  destruct (is_space c) eqn:Hc.
  - destruct in_run; simpl; rewrite ?IH; reflexivity.
  - simpl. rewrite Hc, IH. reflexivity.
Qed.

(** A name without white space is left as it is. *)
Lemma replace_ws_from_clean in_run s :
  string_forall (fun c => negb (is_space c)) s = true ->
  replace_ws_from in_run s = s.
Proof.
  revert in_run. induction s as [|c s IH]; intros in_run H; simpl in *; [reflexivity |].
  apply andb_prop in H as [Hc Hs].
  apply negb_true_iff in Hc. rewrite Hc. f_equal. apply IH, Hs.
Qed.

(** ** Running the effectful functions *)

Lemma sendEditorEmail_run env md fl w :
  sendEditorEmail env md fl w =
  match editor_message env md fl with
  | Throw e => (Throw e, w)
  | Ok msg =>
      match sendgrid_send env (length (trace w)) with
      | Ok u => (Ok u, record (EvSend msg true) w)
      | Throw e => (Throw e, record (EvSend msg false) w)
      end
  end.
Proof.
  unfold sendEditorEmail, bind, lift, sgMail_send.
  destruct (editor_message env md fl); reflexivity.
Qed.

Lemma sendReviewEmail_run env md fl w :
  sendReviewEmail env md fl w =
  match downloadLinks env fl with
  | Throw e => (Throw e, w)
  | Ok links =>
      let reviewId := hex_encode (map (entropy env) (seq (drawn w) 16)) in
      match prop "metadata.projectName" projectName md with
      | Throw e => (Throw e, draw 16 w)
      | Ok _ =>
          match review_message env md links reviewId (clock env (ticks w)) with
          | Throw e => (Throw e, tick (draw 16 w))
          | Ok msg =>
              match sendgrid_send env (length (trace w)) with
              | Throw e => (Throw e, record (EvSend msg false) (tick (draw 16 w)))
              | Ok _ =>
                  (Ok tt,
                   set_reviewData
                     (Some (<[reviewId :=
                                {| re_metadata := md; re_files := fl;
                                   re_timestamp := clock env (S (ticks w)) |}]>
                              (default ∅ (reviewData w))))
                     (tick (record (EvSend msg true) (tick (draw 16 w)))))
              end
          end
      end
  end.
Proof.
  unfold sendReviewEmail, bind, lift, sgMail_send, randomBytes, Date_now, gets, modify.
  destruct (downloadLinks env fl); [| reflexivity]. simpl.
  destruct (prop _ _ md); [| reflexivity]. simpl.
  destruct (review_message _ _ _ _ _); [| reflexivity]. simpl.
  destruct (sendgrid_send _ _); reflexivity.
Qed.

Lemma authorizeB2_run env w :
  authorizeB2 env w =
  if data_truthy (b2Auth w) && (clock env (ticks w) <? b2AuthExpiry w)
  then (Ok (b2Auth w), tick w)
  else
    let w0 := if data_truthy (b2Auth w) then tick w else w in
    match b2_authorize_account env (length (trace w)) with
    | Throw e => (Throw e, record (authorize_call env) w0)
    | Ok data =>
        (Ok data,
         set_b2AuthExpiry (clock env (ticks w0) + validity_window)
           (tick (set_b2Auth data (record (authorize_call env) w0))))
    end.
Proof.
  unfold authorizeB2, bind, gets, ret, modify, Date_now, axios_get_authorize.
  destruct (data_truthy (b2Auth w)); simpl.
  - destruct (clock env (ticks w) <? b2AuthExpiry w); simpl; [reflexivity |].
    destruct (b2_authorize_account env _); reflexivity.
  - destruct (b2_authorize_account env _); reflexivity.
Qed.

(** The events of a state extended by [record]. *)
Lemma new_events_refl w : new_events w w = [].
Proof. unfold new_events. apply drop_all. Qed.

Lemma new_events_same_trace w w' : trace w' = trace w -> new_events w w' = [].
Proof. unfold new_events. intros ->. apply drop_all. Qed.

Lemma new_events_app w w' evs : trace w' = trace w ++ evs -> new_events w w' = evs.
Proof. unfold new_events. intros ->. apply drop_app_length. Qed.

(** ** C9: an unknown action *)

(** C9. A request whose action ([context.bindingData.action]) is neither
    ['prepare'] nor ['complete'], an absent one included, is answered with
    status 400 and body [{error: 'Invalid action'}]; the whole state is left
    as it was: no remote call is recorded, and neither the authorization
    cache nor the review map changes. *)
Theorem invalid_action_rejected env (action : jsval) req w :
  action <> JStr "prepare" ->
  action <> JStr "complete" ->
  module_exports env action req w =
  ({| status := 400; resbody_of := Failure (Literal "Invalid action") |}, w).
Proof.
  intros Hp Hc. unfold module_exports.
  rewrite !strict_eq_str_or_empty by discriminate.
  apply strict_eq_str_false in Hp, Hc. rewrite Hp, Hc. reflexivity.
Qed.

Lemma invalid_action_rejected_witness :
  module_exports demo_env JUndefined (request_with raw_metadata) initial_world =
  ({| status := 400; resbody_of := Failure (Literal "Invalid action") |}, initial_world)
  /\ new_events initial_world
       (snd (module_exports demo_env (JStr "upload") (request_with raw_metadata)
               initial_world)) = [].
Proof.
  split.
  - apply (invalid_action_rejected demo_env JUndefined); discriminate.
  - rewrite (invalid_action_rejected demo_env (JStr "upload")) by discriminate.
    reflexivity.
Defined.

(** ** The two envelopes *)

Lemma editor_message_envelope env m fl msg :
  editor_message env (Obj m) fl = Ok msg ->
  msg_to msg = editor m
  /\ msg_from msg = FROM_EMAIL (process_env env)
  /\ msg_subject msg =
       "New Footage: " +:+ ToString (clientName m) +:+ " - " +:+ ToString (footageType m)
  /\ flow_of_html (msg_html msg) = EditorAssignment.
Proof.
  intros H. unfold editor_message in H. rbind_inv H;
    injection H as <-; simpl; repeat split; reflexivity.
Qed.

Lemma review_message_envelope env m links id t msg :
  review_message env (Obj m) links id t = Ok msg ->
  msg_to msg = BOSS_EMAIL (process_env env)
  /\ msg_from msg = FROM_EMAIL (process_env env)
  /\ msg_subject msg = "Review Required: " +:+ ToString (projectName m)
  /\ flow_of_html (msg_html msg) = ReviewRequest.
Proof.
  intros H. unfold review_message in H. rbind_inv H;
    injection H as <-; simpl; repeat split; reflexivity.
Qed.

(** What [sendEditorEmail] leaves behind: at most one send, of the editor
    message, accepted exactly when the call returns. *)
Lemma sendEditorEmail_outcome env md fl w :
  (exists w', sendEditorEmail env md fl w = (Ok tt, w')
     /\ exists msg, editor_message env md fl = Ok msg
                    /\ w' = record (EvSend msg true) w)
  \/ (exists e, sendEditorEmail env md fl w = (Throw e, w))
  \/ (exists e msg, editor_message env md fl = Ok msg
        /\ sendEditorEmail env md fl w = (Throw e, record (EvSend msg false) w)).
Proof.
  rewrite sendEditorEmail_run.
  destruct (editor_message env md fl) as [msg | e]; [| right; left; eauto].
  destruct (sendgrid_send env _) as [[] | e].
  - left. eauto 10.
  - right. right. eauto.
Qed.

(** The same for [sendReviewEmail], with the state after each exit. *)
Lemma sendReviewEmail_outcome env md fl w :
  let reviewId := hex_encode (map (entropy env) (seq (drawn w) 16)) in
  (exists links msg,
      review_message env md links reviewId (clock env (ticks w)) = Ok msg
      /\ sendReviewEmail env md fl w =
         (Ok tt,
          set_reviewData
            (Some (<[reviewId :=
                       {| re_metadata := md; re_files := fl;
                          re_timestamp := clock env (S (ticks w)) |}]>
                     (default ∅ (reviewData w))))
            (tick (record (EvSend msg true) (tick (draw 16 w))))))
  \/ (exists e w', sendReviewEmail env md fl w = (Throw e, w')
        /\ trace w' = trace w /\ reviewData w' = reviewData w
        /\ b2Auth w' = b2Auth w /\ b2AuthExpiry w' = b2AuthExpiry w)
  \/ (exists e links msg,
        review_message env md links reviewId (clock env (ticks w)) = Ok msg
        /\ sendReviewEmail env md fl w =
           (Throw e, record (EvSend msg false) (tick (draw 16 w)))).
Proof.
  intros reviewId. rewrite sendReviewEmail_run. fold reviewId.
  destruct (downloadLinks env fl) as [links | e]; [| right; left; eauto 10].
  simpl. destruct (prop _ _ md) as [pn | e]; [| right; left; eauto 10].
  destruct (review_message _ _ _ _ _) as [msg | e] eqn:Hmsg; [| right; left; eauto 10].
  destruct (sendgrid_send env _) as [[] | e].
  - left. eauto.
  - right. right. eauto 10.
Qed.

(** ** The completion handler *)

Lemma module_exports_complete env req w :
  module_exports env (JStr "complete") req w =
  match handleUploadComplete env req w with
  | (Ok res, w') => (res, w')
  | (Throw e, w') => (internal_error e, w')
  end.
Proof. reflexivity. Qed.

Lemma module_exports_prepare env req w :
  module_exports env (JStr "prepare") req w =
  match handlePrepareUpload env req w with
  | (Ok res, w') => (res, w')
  | (Throw e, w') => (internal_error e, w')
  end.
Proof. reflexivity. Qed.

Lemma handleUploadComplete_run env req w :
  handleUploadComplete env req w =
  match body req with
  | None => (Throw (TypeError "req.body"), w)
  | Some b =>
      match prop "metadata.uploadType" uploadType (metadata b) with
      | Throw e => (Throw e, w)
      | Ok ut =>
          bind (if strict_eq_str ut "raw"
                then sendEditorEmail env (metadata b) (files b)
                else sendReviewEmail env (metadata b) (files b))
            (fun _ => ret notifications_sent) w
      end
  end.
Proof.
  unfold handleUploadComplete, bind, lift, destructure_body.
  destruct (body req) as [b |]; [| reflexivity].
  destruct (prop _ _ (metadata b)); reflexivity.
Qed.

(** C1. On a completion request that carries a metadata object, the flow is
    chosen by [metadata.uploadType] alone: the handler is the editor flow
    ([sendEditorEmail]) followed by the success response when the property is
    the string ['raw'], and the review flow ([sendReviewEmail]) followed by
    the same response for every other value, ['edited'], any other string
    and an absent property alike. Accordingly every email sent by the call
    carries the editor-assignment template in the first case and the
    review-request template in the second. *)
Theorem complete_dispatch_on_uploadType env fn fs (m : Metadata) fl w :
  let req := mk_request fn fs (Obj m) fl in
  handleUploadComplete env req w =
    bind (if decide (uploadType m = JStr "raw")
          then sendEditorEmail env (Obj m) fl
          else sendReviewEmail env (Obj m) fl)
      (fun _ => ret notifications_sent) w
  /\ forall msg ok,
       EvSend msg ok ∈ new_events w (snd (handleUploadComplete env req w)) ->
       flow_of_html (msg_html msg) =
         if decide (uploadType m = JStr "raw") then EditorAssignment else ReviewRequest.
Proof.
  intros req.
  assert (Hrun : handleUploadComplete env req w =
                 bind (if decide (uploadType m = JStr "raw")
                       then sendEditorEmail env (Obj m) fl
                       else sendReviewEmail env (Obj m) fl)
                   (fun _ => ret notifications_sent) w).
  { rewrite handleUploadComplete_run. simpl.
    destruct (decide (uploadType m = JStr "raw")) as [Hraw | Hraw].
    - apply strict_eq_str_true in Hraw. rewrite Hraw. reflexivity.
    - apply strict_eq_str_false in Hraw. rewrite Hraw. reflexivity. }
  split; [exact Hrun |].
  intros msg ok. rewrite Hrun. unfold bind, ret.
  destruct (decide (uploadType m = JStr "raw")) as [Hraw | Hraw].
  - destruct (sendEditorEmail_outcome env (Obj m) fl w)
      as [(w' & -> & msg' & Hmsg & ->) | [(e & ->) | (e & msg' & Hmsg & ->)]]; simpl.
    + rewrite (new_events_app w _ [EvSend msg' true]) by reflexivity.
      intros Hin. apply list_elem_of_singleton in Hin. injection Hin as -> _.
      apply (editor_message_envelope env m fl msg' Hmsg).
    + rewrite new_events_refl. intros Hin. inversion Hin.
    + rewrite (new_events_app w _ [EvSend msg' false]) by reflexivity.
      intros Hin. apply list_elem_of_singleton in Hin. injection Hin as -> _.
      apply (editor_message_envelope env m fl msg' Hmsg).
  - destruct (sendReviewEmail_outcome env (Obj m) fl w)
      as [(links & msg' & Hmsg & ->)
         | [(e & w' & -> & Htr & _) | (e & links & msg' & Hmsg & ->)]]; simpl.
    + rewrite (new_events_app w _ [EvSend msg' true]) by reflexivity.
      intros Hin. apply list_elem_of_singleton in Hin. injection Hin as -> _.
      apply (review_message_envelope env m _ _ _ msg' Hmsg).
    + rewrite (new_events_same_trace w w' Htr). intros Hin. inversion Hin.
    + rewrite (new_events_app w _ [EvSend msg' false]) by reflexivity.
      intros Hin. apply list_elem_of_singleton in Hin. injection Hin as -> _.
      apply (review_message_envelope env m _ _ _ msg' Hmsg).
Qed.

(** C6. A completion call is all or nothing. Either it answers
    [{success: true, message: 'Notifications sent'}] with status 200 and made
    exactly one remote call, a send that SendGrid accepted; or it answers
    status 500 with the error's message, made no accepted send (no remote
    call at all, or one send that was rejected) and left the review map as it
    was, in particular when the send of the review flow fails. *)
Theorem complete_all_or_nothing env req w :
  let res := fst (module_exports env (JStr "complete") req w) in
  let w' := snd (module_exports env (JStr "complete") req w) in
  (res = notifications_sent /\ exists msg, new_events w w' = [EvSend msg true])
  \/ ((exists e, res = internal_error e)
      /\ (new_events w w' = [] \/ exists msg, new_events w w' = [EvSend msg false])
      /\ reviewData w' = reviewData w).
Proof.
  rewrite module_exports_complete, handleUploadComplete_run. simpl.
  destruct (body req) as [b |]; simpl;
    [| right; rewrite new_events_refl; eauto].
  destruct (prop _ _ (metadata b)) as [ut | e]; simpl;
    [| right; rewrite new_events_refl; eauto].
  unfold bind, ret. destruct (strict_eq_str ut "raw").
  - destruct (sendEditorEmail_outcome env (metadata b) (files b) w)
      as [(w' & -> & msg & Hmsg & ->) | [(e & ->) | (e & msg & Hmsg & ->)]]; simpl.
    + left. split; [reflexivity |]. exists msg. apply new_events_app. reflexivity.
    + right. rewrite new_events_refl. eauto.
    + right. split; [eauto |]. split; [| reflexivity].
      right. exists msg. apply new_events_app. reflexivity.
  - destruct (sendReviewEmail_outcome env (metadata b) (files b) w)
      as [(links & msg & Hmsg & ->)
         | [(e & w' & -> & Htr & Hrd & _) | (e & links & msg & Hmsg & ->)]]; simpl.
    + left. split; [reflexivity |]. exists msg. apply new_events_app. reflexivity.
    + right. rewrite (new_events_same_trace w w' Htr). eauto.
    + right. split; [eauto |]. split; [| reflexivity].
      right. exists msg. apply new_events_app. reflexivity.
Qed.

(** C4. Every email sent by a completion call is the only remote call of
    that call. On the raw flow its recipient is [metadata.editor] and its
    subject is ["New Footage: " + clientName + " - " + footageType]; on the
    review flow (['edited'], and every other value that is not ['raw']) its
    recipient is the configured [BOSS_EMAIL], whatever the request holds, and
    its subject is ["Review Required: " + projectName]. *)
Theorem complete_email_envelope env fn fs (m : Metadata) fl w msg ok :
  let w' := snd (module_exports env (JStr "complete")
                   (mk_request fn fs (Obj m) fl) w) in
  EvSend msg ok ∈ new_events w w' ->
  new_events w w' = [EvSend msg ok]
  /\ (uploadType m = JStr "raw" ->
      msg_to msg = editor m
      /\ msg_subject msg =
           "New Footage: " +:+ ToString (clientName m) +:+ " - "
           +:+ ToString (footageType m))
  /\ (uploadType m <> JStr "raw" ->
      msg_to msg = BOSS_EMAIL (process_env env)
      /\ msg_subject msg = "Review Required: " +:+ ToString (projectName m)).
Proof.
  intros w'. subst w'.
  rewrite module_exports_complete, handleUploadComplete_run. simpl.
  unfold bind, ret. destruct (strict_eq_str (uploadType m) "raw") eqn:Hut.
  - apply strict_eq_str_true in Hut.
    destruct (sendEditorEmail_outcome env (Obj m) fl w)
      as [(w' & -> & msg' & Hmsg & ->) | [(e & ->) | (e & msg' & Hmsg & ->)]]; simpl.
    + rewrite (new_events_app w _ [EvSend msg' true]) by reflexivity.
      intros Hin. apply list_elem_of_singleton in Hin. injection Hin as -> ->.
      destruct (editor_message_envelope env m fl msg' Hmsg) as (? & _ & ? & _).
      split; [reflexivity |]. split; [auto | congruence].
    + rewrite new_events_refl. intros Hin. inversion Hin.
    + rewrite (new_events_app w _ [EvSend msg' false]) by reflexivity.
      intros Hin. apply list_elem_of_singleton in Hin. injection Hin as -> ->.
      destruct (editor_message_envelope env m fl msg' Hmsg) as (? & _ & ? & _).
      split; [reflexivity |]. split; [auto | congruence].
  - apply strict_eq_str_false in Hut.
    destruct (sendReviewEmail_outcome env (Obj m) fl w)
      as [(links & msg' & Hmsg & ->)
         | [(e & w' & -> & Htr & _) | (e & links & msg' & Hmsg & ->)]]; simpl.
    + rewrite (new_events_app w _ [EvSend msg' true]) by reflexivity.
      intros Hin. apply list_elem_of_singleton in Hin. injection Hin as -> ->.
      destruct (review_message_envelope env m _ _ _ msg' Hmsg) as (? & _ & ? & _).
      split; [reflexivity |]. split; [congruence | auto].
    + rewrite (new_events_same_trace w w' Htr). intros Hin. inversion Hin.
    + rewrite (new_events_app w _ [EvSend msg' false]) by reflexivity.
      intros Hin. apply list_elem_of_singleton in Hin. injection Hin as -> ->.
      destruct (review_message_envelope env m _ _ _ msg' Hmsg) as (? & _ & ? & _).
      split; [reflexivity |]. split; [congruence | auto].
Qed.

(** ** The authorization cache *)

(** What [authorizeB2] never touches, and how far it moves the clock cursor. *)
Lemma authorizeB2_frame env w :
  let w' := snd (authorizeB2 env w) in
  reviewData w' = reviewData w /\ drawn w' = drawn w
  /\ (ticks w <= ticks w')%nat
  /\ (new_events w w' = [] \/ new_events w w' = [authorize_call env]).
Proof.
  rewrite authorizeB2_run.
  destruct (data_truthy (b2Auth w)); simpl.
  - destruct (clock env (ticks w) <? b2AuthExpiry w); simpl.
    + rewrite (new_events_same_trace w (tick w)) by reflexivity. auto with lia.
    + destruct (b2_authorize_account env _); simpl;
        (repeat split; [lia | right; apply new_events_app; reflexivity]).
  - destruct (b2_authorize_account env _); simpl;
      (repeat split; [lia | right; apply new_events_app; reflexivity]).
Qed.

(** C2. [authorizeB2] (the spec's [getAuthorization]):
    - when [b2Auth] holds an authorization and the clock reads strictly less
      than [b2AuthExpiry], it returns [b2Auth] and only the clock has been
      read: no remote call, cache untouched;
    - otherwise it makes exactly one remote call, the basic-auth
      [b2_authorize_account] request; when the provider answers, the answer
      is stored in [b2Auth], returned, and [b2AuthExpiry] becomes the clock
      reading taken after the answer plus 23 hours; when the provider
      rejects, the rejection is thrown and the cache is left as it was;
    - hence a second call that follows a call which returned an
      authorization, and reads the clock before the expiry, returns the same
      authorization without any remote call. *)
Theorem authorizeB2_cache_contract env w :
  (data_truthy (b2Auth w) = true ->
   clock env (ticks w) < b2AuthExpiry w ->
   authorizeB2 env w = (Ok (b2Auth w), tick w)
   /\ new_events w (tick w) = [])
  /\ (data_truthy (b2Auth w) = false \/ b2AuthExpiry w <= clock env (ticks w) ->
      let w' := snd (authorizeB2 env w) in
      let after := if data_truthy (b2Auth w) then S (ticks w) else ticks w in
      new_events w w' = [authorize_call env]
      /\ match b2_authorize_account env (length (trace w)) with
         | Ok data =>
             fst (authorizeB2 env w) = Ok data
             /\ b2Auth w' = data
             /\ b2AuthExpiry w' = clock env after + validity_window
         | Throw e =>
             fst (authorizeB2 env w) = Throw e
             /\ b2Auth w' = b2Auth w
             /\ b2AuthExpiry w' = b2AuthExpiry w
         end)
  /\ (forall a w1,
        authorizeB2 env w = (Ok a, w1) ->
        data_truthy a = true ->
        clock env (ticks w1) < b2AuthExpiry w1 ->
        authorizeB2 env w1 = (Ok a, tick w1)
        /\ new_events w1 (tick w1) = []).
Proof.
  assert (Hhit : forall v, data_truthy (b2Auth v) = true ->
                           clock env (ticks v) < b2AuthExpiry v ->
                           authorizeB2 env v = (Ok (b2Auth v), tick v)
                           /\ new_events v (tick v) = []).
  { intros v Ht Hlt. rewrite authorizeB2_run, Ht.
    apply Z.ltb_lt in Hlt. rewrite Hlt. simpl.
    split; [reflexivity | apply new_events_same_trace; reflexivity]. }
  split; [apply Hhit |]. split.
  - intros Hmiss. rewrite authorizeB2_run.
    assert (Hcond : data_truthy (b2Auth w)
                    && (clock env (ticks w) <? b2AuthExpiry w) = false).
    { destruct Hmiss as [-> | Hle]; [reflexivity |].
      apply andb_false_iff. right. apply Z.ltb_ge. exact Hle. }
    rewrite Hcond. simpl.
    destruct (b2_authorize_account env _); simpl;
      (split; [apply new_events_app; destruct (data_truthy (b2Auth w)); reflexivity |]);
      destruct (data_truthy (b2Auth w)); simpl; repeat split; reflexivity.
  - intros a w1 Hrun Ha Hlt.
    assert (Hcache : b2Auth w1 = a).
    { rewrite authorizeB2_run in Hrun.
      destruct (data_truthy (b2Auth w) && _).
      - injection Hrun as <- <-. reflexivity.
      - destruct (b2_authorize_account env _); [| discriminate].
        injection Hrun as <- <-. reflexivity. }
    rewrite <- Hcache in Ha |- *. apply Hhit; assumption.
Qed.

(** ** The preparation handler *)

Lemma handlePrepareUpload_run env req w :
  handlePrepareUpload env req w =
  match body req with
  | None => (Throw (TypeError "req.body"), w)
  | Some b =>
      match authorizeB2 env w with
      | (Throw e, w1) => (Throw e, w1)
      | (Ok auth, w1) =>
          let timestamp := clock env (ticks w1) in
          let w2 := draw 4 (tick w1) in
          let fileId :=
            ToString (JNum timestamp) +:+ "_"
            +:+ hex_encode (map (entropy env) (seq (drawn w1) 4)) in
          match planPath timestamp (fileName b) (metadata b) with
          | Throw e => (Throw e, w2)
          | Ok filePath =>
              match prop "auth.apiUrl" apiUrl auth with
              | Throw e => (Throw e, w2)
              | Ok api =>
                  match prop "auth.authorizationToken" authorizationToken auth with
                  | Throw e => (Throw e, w2)
                  | Ok token =>
                      let w3 :=
                        record (EvGetUploadUrl
                                  (ToString api +:+ "/b2api/v2/b2_get_upload_url")
                                  (B2_BUCKET_ID (process_env env)) token) w2 in
                      match b2_get_upload_url env (length (trace w1)) with
                      | Throw e => (Throw e, w3)
                      | Ok uploadData =>
                          match prop "uploadData.uploadUrl" uploadUrl uploadData with
                          | Throw e => (Throw e, w3)
                          | Ok url =>
                              match prop "uploadData.authorizationToken"
                                      upload_authorizationToken uploadData with
                              | Throw e => (Throw e, w3)
                              | Ok authToken =>
                                  (Ok {| status := 200;
                                         resbody_of :=
                                           PreparedUpload url authToken fileId filePath |},
                                   w3)
                              end
                          end
                      end
                  end
              end
          end
      end
  end.
Proof.
  unfold handlePrepareUpload, bind, lift, destructure_body, ret, Date_now,
    randomBytes, axios_post_upload_url.
  destruct (body req) as [b |]; [| reflexivity].
  destruct (authorizeB2 env w) as [[auth | e] w1]; [| reflexivity]. simpl.
  destruct (planPath _ _ _); [| reflexivity].
  destruct (prop "auth.apiUrl" _ auth); [| reflexivity].
  destruct (prop "auth.authorizationToken" _ auth); [| reflexivity].
  destruct (b2_get_upload_url env _) as [ud | e]; [| reflexivity].
  destruct (prop "uploadData.uploadUrl" _ ud); [| reflexivity].
  destruct (prop "uploadData.authorizationToken" _ ud); reflexivity.
Qed.

(** A path is planned only for a metadata object whose fields of the
    selected variant are strings. *)
Lemma planPath_ok ts fn md path :
  planPath ts fn md = Ok path ->
  exists m, md = Obj m
    /\ (uploadType m = JStr "raw" ->
        exists ed cn, editor m = JStr ed /\ clientName m = JStr cn
          /\ path = "raw_uploads/" +:+ split_head "@" ed +:+ "/"
                    +:+ ToString (JNum ts) +:+ "_" +:+ replace_ws cn +:+ "/"
                    +:+ ToString fn)
    /\ (uploadType m <> JStr "raw" ->
        exists pn, projectName m = JStr pn
          /\ path = "edited_uploads/review/" +:+ ToString (JNum ts) +:+ "_"
                    +:+ replace_ws pn +:+ "/" +:+ ToString fn).
Proof.
  intros H. unfold planPath in H.
  destruct md as [v | m].
  - destruct v; simpl in H; discriminate.
  - exists m. split; [reflexivity |]. simpl in H.
    destruct (strict_eq_str (uploadType m) "raw") eqn:Hut.
    + apply strict_eq_str_true in Hut. split; [| congruence]. intros _.
      destruct (editor m); try discriminate.
      destruct (clientName m); try discriminate.
      simpl in H. injection H as <-. eauto.
    + apply strict_eq_str_false in Hut. split; [congruence |]. intros _.
      destruct (projectName m); try discriminate.
      simpl in H. injection H as <-. eauto.
Qed.

(** C3. Whenever [prepare] produces an upload, the clock reading [ts] taken
    by the handler (the last reading of the call) and four fresh random bytes
    determine the answer: [fileId] is the decimal [ts], an underscore and the
    eight lower-case hexadecimal digits of those bytes; [filePath] is
    [raw_uploads/<editor before '@'>/<ts>_<clientName>/<fileName>] when
    [uploadType] is ['raw'] and
    [edited_uploads/review/<ts>_<projectName>/<fileName>] for every other
    value, where in the name every run of white space is replaced by one
    underscore, so that no white space is left in it; both embed the same
    [ts]. *)
Theorem prepare_file_id_and_path env req w res w' :
  handlePrepareUpload env req w = (Ok res, w') ->
  exists b m n url authToken fileId filePath,
    body req = Some b /\ metadata b = Obj m
    /\ res = {| status := 200;
                resbody_of := PreparedUpload url authToken fileId filePath |}
    /\ ticks w' = S n /\ (ticks w <= n)%nat
    /\ let ts := ToString (JNum (clock env n)) in
       let suffix := hex_encode (map (entropy env) (seq (drawn w) 4)) in
       fileId = ts +:+ "_" +:+ suffix
       /\ String.length suffix = 8%nat
       /\ string_forall is_lower_hex suffix = true
       /\ (uploadType m = JStr "raw" ->
           exists ed cn, editor m = JStr ed /\ clientName m = JStr cn
             /\ filePath = "raw_uploads/" +:+ split_head "@" ed +:+ "/" +:+ ts
                           +:+ "_" +:+ replace_ws cn +:+ "/" +:+ ToString (fileName b)
             /\ string_forall (fun c => negb (is_space c)) (replace_ws cn) = true)
       /\ (uploadType m <> JStr "raw" ->
           exists pn, projectName m = JStr pn
             /\ filePath = "edited_uploads/review/" +:+ ts +:+ "_"
                           +:+ replace_ws pn +:+ "/" +:+ ToString (fileName b)
             /\ string_forall (fun c => negb (is_space c)) (replace_ws pn) = true).
Proof.
  intros H. rewrite handlePrepareUpload_run in H.
  destruct (body req) as [b |]; [| discriminate].
  pose proof (authorizeB2_frame env w) as (_ & Hdrawn & Hticks & _).
  destruct (authorizeB2 env w) as [[auth | e] w1]; [| discriminate].
  simpl in Hdrawn, Hticks, H.
  destruct (planPath _ _ _) as [path |] eqn:Hpath; [| discriminate].
  destruct (prop "auth.apiUrl" _ auth); [| discriminate].
  destruct (prop "auth.authorizationToken" _ auth); [| discriminate].
  destruct (b2_get_upload_url env _) as [ud | e]; [| discriminate].
  destruct (prop "uploadData.uploadUrl" _ ud) as [url |]; [| discriminate].
  destruct (prop "uploadData.authorizationToken" _ ud) as [tok |]; [| discriminate].
  injection H as <- <-.
  destruct (planPath_ok _ _ _ _ Hpath) as (m & Hm & Hraw & Hedited).
  exists b, m, (ticks w1), url, tok. eexists. exists path.
  split; [reflexivity |]. split; [exact Hm |]. split; [reflexivity |].
  split; [reflexivity |]. split; [exact Hticks |]. cbv zeta. rewrite Hdrawn.
  split; [reflexivity |].
  split; [rewrite hex_encode_length, length_map, length_seq; reflexivity |].
  split; [apply hex_encode_lower |]. split.
  - intros Hut. destruct (Hraw Hut) as (ed & cn & ? & ? & ?).
    exists ed, cn. repeat split; try assumption. apply replace_ws_from_no_space.
  - intros Hut. destruct (Hedited Hut) as (pn & ? & ?).
    exists pn. repeat split; try assumption. apply replace_ws_from_no_space.
Qed.

(** [prepare] does produce an upload when the selected variant's fields are
    strings and both provider calls answer with an object. *)
Lemma handlePrepareUpload_succeeds env fn fs (m : Metadata) fl w a w1 ud :
  (if strict_eq_str (uploadType m) "raw"
   then exists ed cn, editor m = JStr ed /\ clientName m = JStr cn
   else exists pn, projectName m = JStr pn) ->
  authorizeB2 env w = (Ok (Obj a), w1) ->
  b2_get_upload_url env (length (trace w1)) = Ok (Obj ud) ->
  exists fileId filePath w',
    handlePrepareUpload env (mk_request fn fs (Obj m) fl) w =
    (Ok {| status := 200;
           resbody_of := PreparedUpload (uploadUrl ud) (upload_authorizationToken ud)
                           fileId filePath |}, w').
Proof.
  intros Hfields Hauth Hurl. rewrite handlePrepareUpload_run. simpl.
  rewrite Hauth. cbv zeta. rewrite Hurl. unfold planPath. simpl.
  destruct (strict_eq_str (uploadType m) "raw").
  - destruct Hfields as (ed & cn & -> & ->). simpl. eauto.
  - destruct Hfields as (pn & ->). simpl. eauto.
Qed.

(** C5, as the code has it. [prepare] validates nothing. When a field that
    the declared variant needs is absent ([editor] or [clientName] of a
    ['raw'] request, [projectName] of any other), the handler first runs
    [authorizeB2], remote call and cache refresh included; if that throws,
    its error is the answer; otherwise the engine raises a [TypeError] at the
    member access on the absent field, after the clock and the random source
    have been read, no upload URL is requested, and the answer is status 500
    with that error's message. *)
Theorem prepare_missing_field_type_error env fn fs (m : Metadata) fl w :
  (uploadType m = JStr "raw"
   /\ (editor m = JUndefined \/ clientName m = JUndefined))
  \/ (uploadType m <> JStr "raw" /\ projectName m = JUndefined) ->
  let out := module_exports env (JStr "prepare") (mk_request fn fs (Obj m) fl) w in
  match authorizeB2 env w with
  | (Throw e, w1) => out = (internal_error e, w1)
  | (Ok _, w1) =>
      (exists access, fst out = internal_error (TypeError access))
      /\ snd out = draw 4 (tick w1)
      /\ new_events w1 (snd out) = []
  end.
Proof.
  intros Hmissing out. subst out.
  rewrite module_exports_prepare, handlePrepareUpload_run. simpl.
  destruct (authorizeB2 env w) as [[auth | e] w1]; [| reflexivity].
  assert (Hplan : exists access,
             planPath (clock env (ticks w1)) fn (Obj m) = Throw (TypeError access)).
  { unfold planPath. simpl.
    destruct Hmissing as [[Hut [Hed | Hcn]] | [Hut Hpn]].
    - apply strict_eq_str_true in Hut. rewrite Hut, Hed. simpl. eauto.
    - apply strict_eq_str_true in Hut. rewrite Hut, Hcn.
      destruct (editor m); simpl; eauto.
    - apply strict_eq_str_false in Hut. rewrite Hut, Hpn. simpl. eauto. }
  destruct Hplan as [access ->]. simpl.
  split; [eauto |]. split; [reflexivity |].
  apply new_events_same_trace. reflexivity.
Qed.

(** C5, counterexample. A ['raw'] request without [editor], from a fresh
    process: the answer is the engine's [TypeError] of [metadata.editor.split]
    under status 500, and by then the authorization call has been made and
    its answer cached. The request was not rejected by a validation. *)
Lemma prepare_missing_editor_counterexample :
  let out := module_exports demo_env (JStr "prepare")
               (request_with raw_metadata_no_editor) initial_world in
  fst out = internal_error (TypeError "metadata.editor.split")
  /\ trace (snd out) = [authorize_call demo_env]
  /\ b2Auth (snd out) = Obj demo_authorization.
Proof. repeat split. Qed.

Lemma prepare_missing_field_type_error_witness :
  let out := module_exports demo_env (JStr "prepare")
               (request_with raw_metadata_no_editor) initial_world in
  (exists access, fst out = internal_error (TypeError access))
  /\ snd out = draw 4 (tick (snd (authorizeB2 demo_env initial_world)))
  /\ new_events (snd (authorizeB2 demo_env initial_world)) (snd out) = [].
Proof.
  exact (prepare_missing_field_type_error demo_env (JStr "clip.mp4") (JNum 512)
           raw_metadata_no_editor demo_files initial_world
           (or_introl (conj eq_refl (or_introl eq_refl)))).
Defined.

(** ** The review identifier and the review map *)

(** C8, as the code has it. On the review flow the identifier is the
    hexadecimal rendering of the next 16 bytes of the random source: 32
    lower-case hexadecimal digits, different from the rendering of any other
    16 bytes (nothing in the code compares it with earlier identifiers).
    When the call succeeds, [global.reviewData], created empty if it was
    absent, holds [{metadata, files, timestamp}] under exactly that key, an
    older entry under the same key being overwritten; the timestamp is the
    clock reading taken after the send. When the call fails, the review map
    is left as it was. *)
Theorem review_id_and_record env fn fs (m : Metadata) fl w :
  uploadType m <> JStr "raw" ->
  let out := module_exports env (JStr "complete") (mk_request fn fs (Obj m) fl) w in
  let bytes := map (entropy env) (seq (drawn w) 16) in
  let reviewId := hex_encode bytes in
  String.length reviewId = 32%nat
  /\ string_forall is_lower_hex reviewId = true
  /\ (forall bs, bs <> bytes -> hex_encode bs <> reviewId)
  /\ (fst out = notifications_sent ->
      reviewData (snd out) =
        Some (<[reviewId := {| re_metadata := Obj m; re_files := fl;
                               re_timestamp := clock env (S (ticks w)) |}]>
                (default ∅ (reviewData w)))
      /\ drawn (snd out) = (drawn w + 16)%nat)
  /\ (fst out <> notifications_sent -> reviewData (snd out) = reviewData w).
Proof.
  intros Hut out bytes reviewId.
  split; [unfold reviewId, bytes;
          rewrite hex_encode_length, length_map, length_seq; reflexivity |].
  split; [apply hex_encode_lower |].
  split; [intros bs Hbs E; apply Hbs, hex_encode_inj, E |].
  subst out. rewrite module_exports_complete, handleUploadComplete_run. simpl.
  apply strict_eq_str_false in Hut. rewrite Hut. unfold bind, ret.
  destruct (sendReviewEmail_outcome env (Obj m) fl w)
    as [(links & msg & Hmsg & ->)
       | [(e & w' & -> & _ & Hrd & _) | (e & links & msg & Hmsg & ->)]]; simpl.
  - split; [intros _; split; reflexivity | intros H; contradiction H; reflexivity].
  - split; [discriminate | intros _; exact Hrd].
  - split; [discriminate | reflexivity].
Qed.

(** C8, counterexample. (1) When SendGrid rejects the message, the call has
    drawn its 16 bytes and answers 500, and nothing is recorded: the review
    map is still absent. (2) When the random source hands out the same bytes
    again, two successful calls in a row use the same identifier, and the map
    holds a single entry, that of the second call. *)
Lemma review_record_counterexample :
  let req := request_with edited_metadata in
  let failed := module_exports rejecting_mail_env (JStr "complete") req initial_world in
  let first := module_exports constant_entropy_env (JStr "complete") req initial_world in
  let second := module_exports constant_entropy_env (JStr "complete") req (snd first) in
  let entry t := {| re_metadata := Obj edited_metadata; re_files := demo_files;
                    re_timestamp := t |} in
  (status (fst failed) = 500
   /\ drawn (snd failed) = 16%nat
   /\ reviewData (snd failed) = None)
  /\ (fst first = notifications_sent
      /\ fst second = notifications_sent
      /\ reviewData (snd first) =
           Some {[ "00000000000000000000000000000000" := entry 1700000001000 ]}
      /\ reviewData (snd second) =
           Some {[ "00000000000000000000000000000000" := entry 1700000003000 ]}).
Proof. vm_compute. repeat split. Qed.

Lemma review_id_and_record_witness :
  let out := module_exports demo_env (JStr "complete")
               (request_with edited_metadata) initial_world in
  fst out = notifications_sent
  /\ reviewData (snd out) =
       Some {[ "0a1bc3d4eeeeeeeeeeeeeeeeeeeeeeee" :=
                 {| re_metadata := Obj edited_metadata; re_files := demo_files;
                    re_timestamp := 1700000001000 |} ]}
  /\ drawn (snd out) = 16%nat.
Proof.
  pose proof (review_id_and_record demo_env (JStr "clip.mp4") (JNum 512)
                edited_metadata demo_files initial_world
                ltac:(discriminate)) as (_ & _ & _ & Hok & _).
  split; [reflexivity |]. destruct (Hok eq_refl) as [Hrd Hdrawn].
  split; [exact Hrd | exact Hdrawn].
Defined.

(** ** Frame properties *)

Lemma handlePrepareUpload_reviewData env req w :
  reviewData (snd (handlePrepareUpload env req w)) = reviewData w.
Proof.
  rewrite handlePrepareUpload_run.
  destruct (body req) as [b |]; [| reflexivity].
  pose proof (authorizeB2_frame env w) as (Hrd & _).
  destruct (authorizeB2 env w) as [[auth | e] w1]; simpl in Hrd; [| exact Hrd].
  simpl.
  repeat match goal with
         | |- context [match ?x with _ => _ end] => destruct x; simpl; try exact Hrd
         end.
Qed.

Lemma handleUploadComplete_cache env req w :
  b2Auth (snd (handleUploadComplete env req w)) = b2Auth w
  /\ b2AuthExpiry (snd (handleUploadComplete env req w)) = b2AuthExpiry w.
Proof.
  rewrite handleUploadComplete_run.
  destruct (body req) as [b |]; [| split; reflexivity].
  destruct (prop _ _ (metadata b)) as [ut | e]; [| split; reflexivity].
  unfold bind, ret. destruct (strict_eq_str ut "raw").
  - destruct (sendEditorEmail_outcome env (metadata b) (files b) w)
      as [(w' & -> & msg & _ & ->) | [(e & ->) | (e & msg & _ & ->)]];
      split; reflexivity.
  - destruct (sendReviewEmail_outcome env (metadata b) (files b) w)
      as [(links & msg & _ & ->)
         | [(e & w' & -> & _ & _ & Ha & Hx) | (e & links & msg & _ & ->)]];
      split; try reflexivity; assumption.
Qed.

(** C10. A completion call whose [metadata.uploadType] is ['raw'] leaves
    [b2Auth], [b2AuthExpiry] and [global.reviewData] as they were; a
    preparation call leaves [global.reviewData] as it was; and no completion
    call, of either flow, touches [b2Auth] or [b2AuthExpiry]. So only
    [prepare] writes the authorization cache and only the review flow of
    [complete] writes the review map. *)
Theorem handlers_frame env w :
  (forall fn fs (m : Metadata) fl,
      uploadType m = JStr "raw" ->
      let w' := snd (module_exports env (JStr "complete")
                       (mk_request fn fs (Obj m) fl) w) in
      b2Auth w' = b2Auth w /\ b2AuthExpiry w' = b2AuthExpiry w
      /\ reviewData w' = reviewData w)
  /\ (forall req,
        reviewData (snd (module_exports env (JStr "prepare") req w)) = reviewData w)
  /\ (forall req,
        let w' := snd (module_exports env (JStr "complete") req w) in
        b2Auth w' = b2Auth w /\ b2AuthExpiry w' = b2AuthExpiry w).
Proof.
  assert (Hcache : forall req,
             let w' := snd (module_exports env (JStr "complete") req w) in
             b2Auth w' = b2Auth w /\ b2AuthExpiry w' = b2AuthExpiry w).
  { intros req w'. subst w'. rewrite module_exports_complete.
    pose proof (handleUploadComplete_cache env req w) as H.
    destruct (handleUploadComplete env req w) as [[res | e] w']; exact H. }
  split; [| split; [| exact Hcache]].
  - intros fn fs m fl Hut w'.
    destruct (Hcache (mk_request fn fs (Obj m) fl)) as [Ha Hx].
    split; [exact Ha |]. split; [exact Hx |]. subst w'.
    rewrite module_exports_complete, handleUploadComplete_run. simpl.
    apply strict_eq_str_true in Hut. rewrite Hut. unfold bind, ret.
    destruct (sendEditorEmail_outcome env (Obj m) fl w)
      as [(w' & -> & msg & _ & ->) | [(e & ->) | (e & msg & _ & ->)]]; reflexivity.
  - intros req. rewrite module_exports_prepare.
    pose proof (handlePrepareUpload_reviewData env req w) as H.
    destruct (handlePrepareUpload env req w) as [[res | e] w']; exact H.
Qed.

Lemma handlers_frame_witness :
  let w := snd (module_exports demo_env (JStr "complete")
                  (request_with edited_metadata) initial_world) in
  let w' := snd (module_exports demo_env (JStr "complete")
                   (request_with raw_metadata) w) in
  trace w' <> trace w
  /\ b2Auth w' = b2Auth w /\ b2AuthExpiry w' = b2AuthExpiry w
  /\ reviewData w' = reviewData w.
Proof.
  split; [discriminate |].
  exact (proj1 (handlers_frame demo_env _) (JStr "clip.mp4") (JNum 512)
           raw_metadata demo_files eq_refl).
Defined.

(** ** The statements at work *)

Lemma authorizeB2_cache_contract_witness :
  let w1 := snd (authorizeB2 demo_env initial_world) in
  new_events initial_world w1 = [authorize_call demo_env]
  /\ fst (authorizeB2 demo_env initial_world) = Ok (Obj demo_authorization)
  /\ b2AuthExpiry w1 = 1700000000000 + validity_window
  /\ authorizeB2 demo_env w1 = (Ok (Obj demo_authorization), tick w1)
  /\ new_events w1 (tick w1) = [].
Proof.
  destruct (authorizeB2_cache_contract demo_env initial_world)
    as (_ & Hmiss & Htwice).
  destruct (Hmiss (or_introl eq_refl)) as (Hcall & Hret & _ & Hexp).
  destruct (Htwice (Obj demo_authorization) _ eq_refl eq_refl eq_refl)
    as (Hagain & Hquiet).
  repeat split; assumption.
Defined.

Lemma prepare_file_id_and_path_witness :
  exists url authToken fileId filePath,
    fst (handlePrepareUpload demo_env (request_with raw_metadata) initial_world)
    = Ok {| status := 200;
            resbody_of := PreparedUpload url authToken fileId filePath |}
    /\ fileId = "1700000001000_0a1bc3d4"
    /\ filePath = "raw_uploads/jane/1700000001000_Acme_Co/clip.mp4".
Proof.
  let v := eval vm_compute in
             (handlePrepareUpload demo_env (request_with raw_metadata) initial_world) in
  assert (Hrun : handlePrepareUpload demo_env (request_with raw_metadata) initial_world
                 = v) by (vm_compute; reflexivity).
  destruct (prepare_file_id_and_path _ _ _ _ _ Hrun)
    as (b & m & n & url & tok & fileId & filePath
        & Hb & Hm & Hres & Hticks & _ & Hid & _ & _ & Hraw & _).
  injection Hb as <-. injection Hm as <-. injection Hticks as <-.
  destruct (Hraw eq_refl) as (ed & cn & Hed & Hcn & Hpath & _).
  injection Hed as <-. injection Hcn as <-.
  exists url, tok, fileId, filePath.
  rewrite Hrun. split; [simpl; f_equal; exact Hres |].
  split; [exact Hid | exact Hpath].
Defined.

Lemma complete_email_envelope_witness :
  (exists msg,
      new_events initial_world
        (snd (module_exports demo_env (JStr "complete")
                (request_with raw_metadata) initial_world)) = [EvSend msg true]
      /\ msg_to msg = JStr "jane@x.com"
      /\ msg_subject msg = "New Footage: Acme Co - Wedding")
  /\ (exists msg,
        new_events initial_world
          (snd (module_exports demo_env (JStr "complete")
                  (request_with edited_metadata) initial_world)) = [EvSend msg true]
        /\ msg_to msg = JStr "boss@nuculture.com"
        /\ msg_subject msg = "Review Required: Spring Promo").
Proof.
  split.
  - edestruct (complete_email_envelope demo_env (JStr "clip.mp4") (JNum 512)
                 raw_metadata demo_files initial_world) as (Hone & Hraw & _).
    { vm_compute. left. }
    eexists. split; [exact Hone |]. exact (Hraw eq_refl).
  - edestruct (complete_email_envelope demo_env (JStr "clip.mp4") (JNum 512)
                 edited_metadata demo_files initial_world) as (Hone & _ & Hedited).
    { vm_compute. left. }
    eexists. split; [exact Hone |]. apply Hedited. discriminate.
Defined.

(** Both flows of C1 do send: one email each, of the selected template. *)
Example complete_dispatch_examples :
  (exists msg,
      trace (snd (handleUploadComplete demo_env (request_with raw_metadata)
                    initial_world)) = [EvSend msg true]
      /\ flow_of_html (msg_html msg) = EditorAssignment)
  /\ (exists msg,
        trace (snd (handleUploadComplete demo_env (request_with no_metadata)
                      initial_world)) = [EvSend msg true]
        /\ flow_of_html (msg_html msg) = ReviewRequest).
Proof. split; eexists; split; reflexivity. Qed.

(** Both exits of C6 occur. *)
Example complete_all_or_nothing_examples :
  fst (module_exports demo_env (JStr "complete") (request_with edited_metadata)
         initial_world) = notifications_sent
  /\ fst (module_exports rejecting_mail_env (JStr "complete")
            (request_with edited_metadata) initial_world)
     = internal_error (Rejected "Unauthorized")
  /\ fst (module_exports demo_env (JStr "complete") {| body := None |} initial_world)
     = internal_error (TypeError "req.body").
Proof. repeat split. Qed.

(** The scenario of the specification: [clip.mp4] for editor [jane@x.com]
    and client [Acme Co]. *)
Example prepare_scenario :
  planPath 1700000001000 (JStr "clip.mp4") (Obj raw_metadata)
  = Ok "raw_uploads/jane/1700000001000_Acme_Co/clip.mp4".
Proof. reflexivity. Qed.

Example split_head_examples :
  split_head "@" "jane@x.com" = "jane" /\ split_head "@" "jane" = "jane".
Proof. split; reflexivity. Qed.

Example replace_ws_examples :
  replace_ws "Acme  Co Ltd" = "Acme_Co_Ltd" /\ replace_ws " a" = "_a".
Proof. split; reflexivity. Qed.

Example hex_encode_example : hex_encode [x00; xff; x1a] = "00ff1a".
Proof. reflexivity. Qed.

Example base64_example : base64 (utf8 "user:pass") = "dXNlcjpwYXNz".
Proof. reflexivity. Qed.



(** * Further properties of the code *)

(** ** Strings *)

Lemma string_length_app s t :
  String.length (s +:+ t) = (String.length s + String.length t)%nat.
Proof. induction s as [|c s IH]; simpl; [reflexivity | rewrite IH; reflexivity]. Qed.

(** Two concatenations with tails of the same length agree part by part. *)
Lemma string_app_inj_tail s1 t1 s2 t2 :
  String.length s2 = String.length t2 ->
  s1 +:+ s2 = t1 +:+ t2 -> s1 = t1 /\ s2 = t2.
Proof.
  revert t1. induction s1 as [|c s1 IH]; intros [|d t1] Hlen E; simpl in E.
  - split; [reflexivity | exact E].
  - apply (f_equal String.length) in E.
    simpl in E. rewrite ?string_length_app in E. simpl in E. lia.
  - apply (f_equal String.length) in E.
    simpl in E. rewrite ?string_length_app in E. simpl in E. lia.
  - injection E as -> E. destruct (IH t1 Hlen E) as [-> ->]. split; reflexivity.
Qed.

(** [split('@')[0]]: the part of the address before the first separator. It
    holds no separator, the input is that part followed by nothing or by a
    separator and a rest, an input without separator is returned whole, and
    whatever follows the first separator is ignored. *)
Theorem split_head_local_part sep s :
  no_char sep (split_head sep s) = true
  /\ (s = split_head sep s
      \/ exists rest, s = split_head sep s +:+ String sep rest)
  /\ (no_char sep s = true -> split_head sep s = s)
  /\ (forall a b, no_char sep a = true -> split_head sep (a +:+ String sep b) = a).
Proof.
  unfold no_char. repeat split.
  - induction s as [|c s IH]; simpl; [reflexivity |].
    destruct (Ascii.eqb c sep) eqn:E; simpl; [reflexivity |].
    rewrite E, IH. reflexivity.
  - induction s as [|c s IH]; simpl; [left; reflexivity |].
    destruct (Ascii.eqb c sep) eqn:E.
    + right. exists s. apply Ascii.eqb_eq in E. subst c. reflexivity.
    + destruct IH as [IH | [rest IH]].
      * left. f_equal. exact IH.
      * right. exists rest. rewrite IH at 1. reflexivity.
  - induction s as [|c s IH]; simpl; [reflexivity |].
    intros H. apply andb_prop in H as [Hc Hs].
    apply negb_true_iff in Hc. rewrite Hc, (IH Hs). reflexivity.
  - intros a b. induction a as [|c a IH]; simpl.
    + intros _. rewrite Ascii.eqb_refl. reflexivity.
    + intros H. apply andb_prop in H as [Hc Hs].
      apply negb_true_iff in Hc. rewrite Hc, (IH Hs). reflexivity.
Qed.

Lemma replace_ws_from_length in_run s :
  (String.length (replace_ws_from in_run s) <= String.length s)%nat.
Proof.
  revert in_run. induction s as [|c s IH]; intros in_run; simpl; [lia |].
  destruct (is_space c).
  - destruct in_run; simpl; [specialize (IH true) | specialize (IH true)]; lia.
  - simpl. specialize (IH false). lia.
Qed.

Lemma replace_ws_from_empty in_run s :
  in_run = false -> replace_ws_from in_run s = EmptyString -> s = EmptyString.
Proof.
  intros ->. destruct s as [|c s]; simpl; [reflexivity |].
  destruct (is_space c); discriminate.
Qed.

(** [replace(/\s+/g, '_')], the sanitizer of the path segment: the result
    holds no white space; sanitizing twice is sanitizing once; the result is
    never longer than the name; a name without white space is kept as it
    is; and only the empty name gives the empty segment (a name of white
    space alone gives one underscore). *)
Theorem replace_ws_sanitizes s :
  no_space (replace_ws s) = true
  /\ replace_ws (replace_ws s) = replace_ws s
  /\ (String.length (replace_ws s) <= String.length s)%nat
  /\ (no_space s = true -> replace_ws s = s)
  /\ (replace_ws s = EmptyString -> s = EmptyString).
Proof.
  unfold no_space, replace_ws.
  split; [apply replace_ws_from_no_space |].
  split; [apply replace_ws_from_clean, replace_ws_from_no_space |].
  split; [apply replace_ws_from_length |].
  split; [apply replace_ws_from_clean |].
  apply replace_ws_from_empty. reflexivity.
Qed.

(** [replace(/\n/g, '<br>')], applied to the instructions and the editor
    notes: no line feed is left, the text never shrinks, a text without
    line feed is kept as it is, and the replacement of a concatenation is
    the concatenation of the replacements. *)
Theorem replace_newlines_html s :
  no_char "010" (replace_newlines s) = true
  /\ (String.length s <= String.length (replace_newlines s))%nat
  /\ (no_char "010" s = true -> replace_newlines s = s)
  /\ (forall a b,
        replace_newlines (a +:+ b) = replace_newlines a +:+ replace_newlines b).
Proof.
  unfold no_char. repeat split.
  - induction s as [|c s IH]; simpl; [reflexivity |].
    destruct (Ascii.eqb c "010") eqn:E; simpl; [exact IH |].
    rewrite E, IH. reflexivity.
  - induction s as [|c s IH]; simpl; [lia |].
    destruct (Ascii.eqb c "010"); rewrite ?string_length_app; simpl; lia.
  - induction s as [|c s IH]; simpl; [reflexivity |].
    intros H. apply andb_prop in H as [Hc Hs].
    apply negb_true_iff in Hc. rewrite Hc, (IH Hs). reflexivity.
  - intros a b. induction a as [|c a IH]; simpl; [reflexivity |].
    destruct (Ascii.eqb c "010"); simpl; rewrite IH; reflexivity.
Qed.

(** ** Reading properties *)

Lemma prop_read {A} access (p : A -> jsval) (d : jsdata A) :
  prop access p d = if nullish d then Throw (TypeError access) else Ok (read p d).
Proof. destruct d as [[] |]; reflexivity. Qed.

(** ** The authorization step, once more *)

Lemma authorizeB2_returns_cache env w auth w1 :
  authorizeB2 env w = (Ok auth, w1) -> b2Auth w1 = auth.
Proof.
  rewrite authorizeB2_run. destruct (data_truthy (b2Auth w) && _).
  - intros H. injection H as <- <-. reflexivity.
  - destruct (b2_authorize_account env _); [| discriminate].
    intros H. injection H as <- <-. reflexivity.
Qed.

Lemma authorizeB2_trace env w :
  let hit := data_truthy (b2Auth w) && (clock env (ticks w) <? b2AuthExpiry w) in
  trace (snd (authorizeB2 env w)) =
  trace w ++ (if hit then [] else [authorize_call env]).
Proof.
  rewrite authorizeB2_run. cbv zeta.
  destruct (data_truthy (b2Auth w)); simpl.
  - destruct (clock env (ticks w) <? b2AuthExpiry w); simpl.
    + symmetry. apply app_nil_r.
    + destruct (b2_authorize_account env _); reflexivity.
  - destruct (b2_authorize_account env _); reflexivity.
Qed.

(** The cache after [authorizeB2]: untouched, or a provider answer with an
    expiry 23 hours after a clock reading of this call. *)
Lemma authorizeB2_cache_effect env w :
  let w1 := snd (authorizeB2 env w) in
  (b2Auth w1 = b2Auth w /\ b2AuthExpiry w1 = b2AuthExpiry w)
  \/ (b2_authorize_account env (length (trace w)) = Ok (b2Auth w1)
      /\ exists n, (ticks w <= n < ticks w1)%nat
                   /\ b2AuthExpiry w1 = clock env n + validity_window).
Proof.
  rewrite authorizeB2_run.
  destruct (data_truthy (b2Auth w)); simpl.
  - destruct (clock env (ticks w) <? b2AuthExpiry w); simpl; [left; auto |].
    destruct (b2_authorize_account env _) eqn:E; simpl; [| left; auto].
    right. split; [reflexivity |]. exists (S (ticks w)). split; [lia | reflexivity].
  - destruct (b2_authorize_account env _) eqn:E; simpl; [| left; auto].
    right. split; [reflexivity |]. exists (ticks w). split; [lia | reflexivity].
Qed.

(** ** The preparation handler, case by case *)

Lemma handlePrepareUpload_shape env req w :
  match body req with
  | None => handlePrepareUpload env req w = (Throw (TypeError "req.body"), w)
  | Some b =>
      match authorizeB2 env w with
      | (Throw e, w1) => handlePrepareUpload env req w = (Throw e, w1)
      | (Ok auth, w1) =>
          let w2 := draw 4 (tick w1) in
          let w3 := record (upload_url_call env auth) w2 in
          (exists e, handlePrepareUpload env req w = (Throw e, w2))
          \/ (nullish auth = false
              /\ exists e, b2_get_upload_url env (length (trace w1)) = Throw e
                           /\ handlePrepareUpload env req w = (Throw e, w3))
          \/ (nullish auth = false
              /\ exists ud, b2_get_upload_url env (length (trace w1)) = Ok ud
                   /\ nullish ud = true
                   /\ handlePrepareUpload env req w =
                      (Throw (TypeError "uploadData.uploadUrl"), w3))
          \/ (nullish auth = false
              /\ exists ud fileId filePath,
                   b2_get_upload_url env (length (trace w1)) = Ok ud
                   /\ nullish ud = false
                   /\ planPath (clock env (ticks w1)) (fileName b) (metadata b)
                      = Ok filePath
                   /\ fileId = ToString (JNum (clock env (ticks w1))) +:+ "_"
                               +:+ hex_encode (map (entropy env) (seq (drawn w1) 4))
                   /\ handlePrepareUpload env req w =
                      (Ok {| status := 200;
                             resbody_of :=
                               PreparedUpload (read uploadUrl ud)
                                 (read upload_authorizationToken ud) fileId filePath |},
                       w3))
      end
  end.
Proof.
  rewrite handlePrepareUpload_run.
  destruct (body req) as [b |]; [| reflexivity].
  destruct (authorizeB2 env w) as [[auth | e] w1]; [| reflexivity].
  cbv zeta. destruct (planPath _ _ _) as [path | e]; [| left; eauto].
  rewrite !prop_read. unfold upload_url_call.
  destruct (nullish auth); [left; eauto |].
  destruct (b2_get_upload_url env _) as [ud | e]; [| right; left; eauto].
  rewrite !prop_read. destruct (nullish ud) eqn:Hud.
  - right. right. left. eauto 10.
  - right. right. right. split; [reflexivity |]. exists ud. eauto 10.
Qed.

(** What the exported function answers: 400 with ['Invalid action'] exactly
    for an action that is neither ['prepare'] nor ['complete']; otherwise 500
    with the message of the error caught, or 200 with the upload of
    [prepare], or 200 with the fixed success body of [complete]. *)
Theorem response_classification env action req w :
  let res := fst (module_exports env action req w) in
  (action <> JStr "prepare" /\ action <> JStr "complete"
   /\ res = {| status := 400; resbody_of := Failure (Literal "Invalid action") |})
  \/ ((action = JStr "prepare" \/ action = JStr "complete")
      /\ exists e, res = internal_error e)
  \/ (action = JStr "prepare"
      /\ exists url tok fileId filePath,
           res = {| status := 200;
                    resbody_of := PreparedUpload url tok fileId filePath |})
  \/ (action = JStr "complete" /\ res = notifications_sent).
Proof.
  cbv zeta.
  destruct (decide (action = JStr "prepare")) as [-> | Hp].
  - rewrite module_exports_prepare.
    pose proof (handlePrepareUpload_shape env req w) as H.
    destruct (body req) as [b |]; [| rewrite H; right; left; eauto].
    destruct (authorizeB2 env w) as [[auth | e] w1]; [| rewrite H; right; left; eauto].
    cbv zeta in H.
    destruct H as [(e & ->) | [(_ & e & _ & ->) | [(_ & ud & _ & _ & ->)
                  | (_ & ud & fileId & filePath & _ & _ & _ & _ & ->)]]];
      simpl; [right; left; eauto .. |].
    right. right. left. eauto 10.
  - destruct (decide (action = JStr "complete")) as [-> | Hc].
    + rewrite module_exports_complete.
      destruct (handleUploadComplete env req w) as [[res | e] w'] eqn:Hrun; simpl.
      * right. right. right. split; [reflexivity |].
        rewrite handleUploadComplete_run in Hrun.
        destruct (body req) as [b |]; [| discriminate].
        destruct (prop _ _ (metadata b)); [| discriminate].
        unfold bind, ret in Hrun.
        destruct (if strict_eq_str a "raw" then _ else _) as [[[] | e] w0];
          [| discriminate].
        injection Hrun as <- _. reflexivity.
      * right. left. eauto.
    + left. split; [exact Hp |]. split; [exact Hc |].
      unfold module_exports. rewrite !strict_eq_str_or_empty by discriminate.
      apply strict_eq_str_false in Hp, Hc. rewrite Hp, Hc. reflexivity.
Qed.

(** A request without a body: both handlers throw at the destructuring of
    [req.body], before anything else; the answer is 500 and the state is
    untouched (no remote call, no clock or random read). *)
Theorem request_without_body env action req w :
  body req = None ->
  action = JStr "prepare" \/ action = JStr "complete" ->
  module_exports env action req w = (internal_error (TypeError "req.body"), w).
Proof.
  intros Hbody [-> | ->].
  - rewrite module_exports_prepare, handlePrepareUpload_run, Hbody. reflexivity.
  - rewrite module_exports_complete, handleUploadComplete_run, Hbody. reflexivity.
Qed.

Lemma request_without_body_witness :
  module_exports demo_env (JStr "prepare") {| body := None |} initial_world
  = (internal_error (TypeError "req.body"), initial_world)
  /\ module_exports demo_env (JStr "complete") {| body := None |} initial_world
     = (internal_error (TypeError "req.body"), initial_world).
Proof.
  split.
  - exact (request_without_body demo_env (JStr "prepare") {| body := None |}
             initial_world eq_refl (or_introl eq_refl)).
  - exact (request_without_body demo_env (JStr "complete") {| body := None |}
             initial_world eq_refl (or_intror eq_refl)).
Defined.

Lemma handlePrepareUpload_trace env req w :
  let w' := snd (handlePrepareUpload env req w) in
  let w1 := snd (authorizeB2 env w) in
  (w' = w /\ body req = None)
  \/ (body req <> None
      /\ b2Auth w' = b2Auth w1 /\ b2AuthExpiry w' = b2AuthExpiry w1
      /\ (trace w' = trace w1
          \/ (nullish (b2Auth w') = false
              /\ trace w' = trace w1 ++ [upload_url_call env (b2Auth w')]))).
Proof.
  cbv zeta. pose proof (handlePrepareUpload_shape env req w) as H.
  destruct (body req) as [b |]; [| rewrite H; left; auto].
  right. split; [discriminate |].
  destruct (authorizeB2 env w) as [[auth | e] w1] eqn:Hauth;
    [| rewrite H; simpl; auto].
  apply authorizeB2_returns_cache in Hauth. cbv zeta in H. simpl.
  destruct H as [(e & ->) | [(Hn & e & _ & ->) | [(Hn & ud & _ & _ & ->)
                | (Hn & ud & fileId & filePath & _ & _ & _ & _ & ->)]]];
    simpl; rewrite ?Hauth; auto.
Qed.

(** The remote calls of [prepare]: none, the authorization call alone, the
    upload-URL call alone, or the authorization call followed by the
    upload-URL call; never an email. The upload-URL call is addressed to the
    [apiUrl] of the authorization now in the cache and carries its token. *)
Theorem prepare_remote_calls env req w :
  let w' := snd (module_exports env (JStr "prepare") req w) in
  exists evs,
    trace w' = trace w ++ evs
    /\ forallb (fun ev => negb (is_send ev)) evs = true
    /\ (evs = [] \/ evs = [authorize_call env]
        \/ evs = [upload_url_call env (b2Auth w')]
        \/ evs = [authorize_call env; upload_url_call env (b2Auth w')]).
Proof.
  cbv zeta. rewrite module_exports_prepare.
  pose proof (handlePrepareUpload_trace env req w) as H.
  pose proof (authorizeB2_trace env w) as Ht. cbv zeta in H, Ht.
  assert (Hgoal : exists evs,
             trace (snd (handlePrepareUpload env req w)) = trace w ++ evs
             /\ forallb (fun ev => negb (is_send ev)) evs = true
             /\ (evs = [] \/ evs = [authorize_call env]
                 \/ evs = [upload_url_call env
                             (b2Auth (snd (handlePrepareUpload env req w)))]
                 \/ evs = [authorize_call env;
                           upload_url_call env
                             (b2Auth (snd (handlePrepareUpload env req w)))])).
  { destruct H as [[-> _] | (_ & _ & _ & [Htr | [_ Htr]])].
    - exists []. rewrite app_nil_r. auto.
    - rewrite Htr, Ht. destruct (data_truthy (b2Auth w) && _).
      + exists []. auto.
      + exists [authorize_call env]. auto 10.
    - rewrite Htr, Ht, <- app_assoc. destruct (data_truthy (b2Auth w) && _).
      + eexists. split; [reflexivity |]. split; [reflexivity |]. auto.
      + eexists. split; [reflexivity |]. split; [reflexivity |]. auto 10. }
  destruct (handlePrepareUpload env req w) as [[res | e] w']; exact Hgoal.
Qed.

(** With an authorization in the cache and a clock reading before its
    expiry, [prepare] never calls [b2_authorize_account] and leaves the cache
    as it is; its only possible remote call is the upload-URL request, made
    with the cached [apiUrl] and token. *)
Theorem prepare_with_valid_cache env req w :
  data_truthy (b2Auth w) = true ->
  clock env (ticks w) < b2AuthExpiry w ->
  let w' := snd (module_exports env (JStr "prepare") req w) in
  b2Auth w' = b2Auth w /\ b2AuthExpiry w' = b2AuthExpiry w
  /\ (new_events w w' = [] \/ new_events w w' = [upload_url_call env (b2Auth w)]).
Proof.
  intros Ht Hlt. cbv zeta. rewrite module_exports_prepare.
  pose proof (handlePrepareUpload_trace env req w) as H.
  pose proof (authorizeB2_trace env w) as Htr. cbv zeta in H, Htr.
  assert (Hstep : authorizeB2 env w = (Ok (b2Auth w), tick w)).
  { rewrite authorizeB2_run, Ht. apply Z.ltb_lt in Hlt. rewrite Hlt. reflexivity. }
  rewrite Ht in Htr. apply Z.ltb_lt in Hlt. rewrite Hlt in Htr. simpl in Htr.
  rewrite Hstep in H. simpl in H.
  assert (Hgoal :
            let w' := snd (handlePrepareUpload env req w) in
            b2Auth w' = b2Auth w /\ b2AuthExpiry w' = b2AuthExpiry w
            /\ (new_events w w' = []
                \/ new_events w w' = [upload_url_call env (b2Auth w)])).
  { cbv zeta. destruct H as [[-> _] | (_ & Ha & Hx & [Htr' | [_ Htr']])].
    - rewrite new_events_refl. auto.
    - rewrite Ha, Hx. split; [reflexivity |]. split; [reflexivity |].
      left. apply new_events_same_trace. exact Htr'.
    - split; [exact Ha |]. split; [exact Hx |]. right.
      apply new_events_app. rewrite Htr', Ha. reflexivity. }
  destruct (handlePrepareUpload env req w) as [[res | e] w']; exact Hgoal.
Qed.

Lemma prepare_with_valid_cache_witness :
  let w1 := snd (module_exports demo_env (JStr "prepare")
                   (request_with raw_metadata) initial_world) in
  let w2 := snd (module_exports demo_env (JStr "prepare")
                   (request_with edited_metadata) w1) in
  b2Auth w2 = Obj demo_authorization
  /\ b2AuthExpiry w2 = b2AuthExpiry w1
  /\ (new_events w1 w2 = []
      \/ new_events w1 w2 = [upload_url_call demo_env (Obj demo_authorization)]).
Proof.
  exact (prepare_with_valid_cache demo_env (request_with edited_metadata)
           (snd (module_exports demo_env (JStr "prepare")
                   (request_with raw_metadata) initial_world))
           eq_refl eq_refl).
Defined.

(** A successful [prepare] hands on the provider's answer untouched: the
    [uploadUrl] and [authToken] of the response are the [uploadUrl] and
    [authorizationToken] of the answer to the last remote call, which was the
    upload-URL request made with the authorization now in the cache. *)
Theorem prepare_hands_on_provider_answer env req w :
  let out := module_exports env (JStr "prepare") req w in
  status (fst out) = 200 ->
  exists ud fileId filePath,
    b2_get_upload_url env (length (trace (snd out)) - 1) = Ok ud
    /\ nullish ud = false
    /\ fst out = {| status := 200;
                    resbody_of :=
                      PreparedUpload (read uploadUrl ud)
                        (read upload_authorizationToken ud) fileId filePath |}
    /\ last (trace (snd out)) = Some (upload_url_call env (b2Auth (snd out))).
Proof.
  cbv zeta. rewrite module_exports_prepare.
  pose proof (handlePrepareUpload_shape env req w) as H.
  destruct (body req) as [b |]; [| rewrite H; discriminate].
  destruct (authorizeB2 env w) as [[auth | e] w1] eqn:Hauth;
    [| rewrite H; discriminate].
  apply authorizeB2_returns_cache in Hauth. cbv zeta in H.
  destruct H as [(e & ->) | [(_ & e & _ & ->) | [(_ & ud & _ & _ & ->)
                | (_ & ud & fileId & filePath & Hud & Hn & _ & _ & ->)]]];
    try discriminate.
  intros _. exists ud, fileId, filePath. simpl.
  rewrite length_app, last_snoc, Hauth. simpl.
  replace (length (trace w1) + 1 - 1)%nat with (length (trace w1)) by lia.
  auto.
Qed.

Lemma prepare_hands_on_provider_answer_witness :
  exists fileId filePath,
    fst (module_exports demo_env (JStr "prepare") (request_with raw_metadata)
           initial_world)
    = {| status := 200;
         resbody_of :=
           PreparedUpload (uploadUrl demo_upload_data)
             (upload_authorizationToken demo_upload_data) fileId filePath |}.
Proof.
  destruct (prepare_hands_on_provider_answer demo_env (request_with raw_metadata)
              initial_world eq_refl)
    as (ud & fileId & filePath & Hud & _ & Hres & _).
  injection Hud as <-. exists fileId, filePath. exact Hres.
Defined.

(** [prepare] never rolls the cache back: after the call the cache is what
    the authorization step made of it, whatever happened afterwards. In
    particular an authorization fetched by a call that then fails (missing
    field, rejected upload-URL request) stays cached. *)
Theorem prepare_keeps_fetched_authorization env req w :
  let w' := snd (module_exports env (JStr "prepare") req w) in
  let w1 := snd (authorizeB2 env w) in
  (body req = None -> w' = w)
  /\ (body req <> None ->
      b2Auth w' = b2Auth w1 /\ b2AuthExpiry w' = b2AuthExpiry w1)
  /\ (forall data,
        body req <> None ->
        data_truthy (b2Auth w) = false ->
        b2_authorize_account env (length (trace w)) = Ok data ->
        b2Auth w' = data
        /\ b2AuthExpiry w' = clock env (ticks w) + validity_window).
Proof.
  cbv zeta. rewrite module_exports_prepare.
  pose proof (handlePrepareUpload_trace env req w) as H. cbv zeta in H.
  assert (Hsnd : snd (let (r, w') := handlePrepareUpload env req w in
                      match r with
                      | Ok res => (res, w')
                      | Throw e => (internal_error e, w')
                      end) = snd (handlePrepareUpload env req w)).
  { destruct (handlePrepareUpload env req w) as [[res | e] w']; reflexivity. }
  rewrite Hsnd. clear Hsnd.
  split; [| split].
  - intros Hb. destruct H as [[-> _] | (Hb' & _)]; [reflexivity | contradiction].
  - intros Hb. destruct H as [[_ Hb'] | (_ & Ha & Hx & _)]; [contradiction | auto].
  - intros data Hb Hfalsy Hdata.
    destruct H as [[_ Hb'] | (_ & Ha & Hx & _)]; [contradiction |].
    rewrite Ha, Hx, authorizeB2_run, Hfalsy, Hdata. simpl. auto.
Qed.

Lemma prepare_keeps_fetched_authorization_witness :
  let w' := snd (module_exports demo_env (JStr "prepare")
                   (request_with raw_metadata_no_editor) initial_world) in
  b2Auth w' = Obj demo_authorization
  /\ b2AuthExpiry w' = 1700000000000 + validity_window.
Proof.
  exact (proj2 (proj2 (prepare_keeps_fetched_authorization demo_env
                         (request_with raw_metadata_no_editor) initial_world))
           (Obj demo_authorization) ltac:(discriminate) eq_refl eq_refl).
Defined.

Lemma authorizeB2_hit env w :
  data_truthy (b2Auth w) = true ->
  clock env (ticks w) < b2AuthExpiry w ->
  authorizeB2 env w = (Ok (b2Auth w), tick w).
Proof.
  intros Ht Hlt. rewrite authorizeB2_run, Ht.
  apply Z.ltb_lt in Hlt. rewrite Hlt. reflexivity.
Qed.

(** One authorization serves any number of calls: as long as every clock
    reading of [n] calls in a row is before the expiry, each of them returns
    the cached authorization, none calls the provider, and the cache and its
    expiry stay as they are; the calls read the clock [n] times. *)
Theorem authorize_repeatedly_cached env n w :
  data_truthy (b2Auth w) = true ->
  (forall k, (k < n)%nat -> clock env (ticks w + k) < b2AuthExpiry w) ->
  let out := authorize_repeatedly env n w in
  fst out = replicate n (Ok (b2Auth w))
  /\ trace (snd out) = trace w
  /\ b2Auth (snd out) = b2Auth w
  /\ b2AuthExpiry (snd out) = b2AuthExpiry w
  /\ ticks (snd out) = (ticks w + n)%nat.
Proof.
  revert w. induction n as [|n IH]; intros w Ht Hclock; simpl.
  - repeat split. lia.
  - rewrite (authorizeB2_hit env w Ht).
    + specialize (IH (tick w) Ht).
      destruct (authorize_repeatedly env n (tick w)) as [rs w2].
      destruct IH as (Hrs & Htr & Ha & Hx & Hticks).
      * intros k Hk. change (ticks (tick w)) with (S (ticks w)).
        replace (S (ticks w) + k)%nat with (ticks w + S k)%nat by lia.
        apply Hclock. lia.
      * simpl in *. rewrite Hrs, Htr, Ha, Hx, Hticks. repeat split. lia.
    + rewrite <- (Nat.add_0_r (ticks w)). apply Hclock. lia.
Qed.

Lemma authorize_repeatedly_cached_witness :
  let w1 := snd (authorizeB2 demo_env initial_world) in
  let out := authorize_repeatedly demo_env 3 w1 in
  fst out = replicate 3 (Ok (Obj demo_authorization))
  /\ trace (snd out) = [authorize_call demo_env]
  /\ b2Auth (snd out) = Obj demo_authorization
  /\ b2AuthExpiry (snd out) = 1700000000000 + validity_window
  /\ ticks (snd out) = 4%nat.
Proof.
  apply (authorize_repeatedly_cached demo_env 3
           (snd (authorizeB2 demo_env initial_world)) eq_refl).
  intros k Hk.
  destruct k as [|[|[|k]]]; [reflexivity | reflexivity | reflexivity | lia].
Defined.

(** A rejected authorization is not remembered: when the cache is empty and
    the provider rejects, the error is thrown, the cache stays empty, and the
    next call asks the provider again. *)
Theorem rejected_authorization_is_retried env w e :
  data_truthy (b2Auth w) = false ->
  b2_authorize_account env (length (trace w)) = Throw e ->
  let w1 := snd (authorizeB2 env w) in
  fst (authorizeB2 env w) = Throw e
  /\ b2Auth w1 = b2Auth w /\ b2AuthExpiry w1 = b2AuthExpiry w
  /\ trace w1 = trace w ++ [authorize_call env]
  /\ trace (snd (authorizeB2 env w1)) =
     trace w ++ [authorize_call env; authorize_call env].
Proof.
  intros Hfalsy Hrej. cbv zeta.
  pose proof (authorizeB2_trace env w) as Htr. cbv zeta in Htr.
  rewrite Hfalsy in Htr. simpl in Htr.
  assert (Hrun : authorizeB2 env w = (Throw e, record (authorize_call env) w)).
  { rewrite authorizeB2_run, Hfalsy, Hrej. reflexivity. }
  rewrite Hrun. simpl. repeat split.
  pose proof (authorizeB2_trace env (record (authorize_call env) w)) as Htr2.
  cbv zeta in Htr2. simpl in Htr2. rewrite Hfalsy in Htr2. simpl in Htr2.
  rewrite Htr2, <- app_assoc. reflexivity.
Qed.

Lemma rejected_authorization_is_retried_witness :
  let env := {| process_env := demo_process_env; clock := clock demo_env;
                entropy := demo_entropy;
                b2_authorize_account := fun _ => Throw (Rejected "401");
                b2_get_upload_url := b2_get_upload_url demo_env;
                sendgrid_send := sendgrid_send demo_env;
                scaled_size := scaled_size demo_env |} in
  fst (authorizeB2 env initial_world) = Throw (Rejected "401")
  /\ trace (snd (authorizeB2 env (snd (authorizeB2 env initial_world)))) =
     [authorize_call env; authorize_call env].
Proof.
  cbv zeta.
  match goal with
  | |- fst (authorizeB2 ?env _) = _ /\ _ =>
      destruct (rejected_authorization_is_retried env initial_world (Rejected "401")
                  eq_refl eq_refl) as (Hres & _ & _ & _ & Htwice)
  end.
  split; [exact Hres | exact Htwice].
Defined.

(** ** The file identifier *)

(** The [fileId] of a prepared upload determines the clock reading and the
    four random bytes it was built from: two uploads, of any two requests in
    any two processes, get the same [fileId] only when both read the same
    time and drew the same bytes. *)
Theorem fileId_determines_time_and_bytes
    env1 env2 req1 req2 w1 w2 w1' w2' url1 tok1 path1 url2 tok2 path2 fileId :
  handlePrepareUpload env1 req1 w1 =
    (Ok {| status := 200; resbody_of := PreparedUpload url1 tok1 fileId path1 |}, w1') ->
  handlePrepareUpload env2 req2 w2 =
    (Ok {| status := 200; resbody_of := PreparedUpload url2 tok2 fileId path2 |}, w2') ->
  clock env1 (pred (ticks w1')) = clock env2 (pred (ticks w2'))
  /\ map (entropy env1) (seq (drawn w1' - 4) 4)
     = map (entropy env2) (seq (drawn w2' - 4) 4).
Proof.
  assert (Hinv : forall env req w w' url tok path,
             handlePrepareUpload env req w =
               (Ok {| status := 200;
                      resbody_of := PreparedUpload url tok fileId path |}, w') ->
             fileId = ToString (JNum (clock env (pred (ticks w')))) +:+ "_"
                      +:+ hex_encode (map (entropy env) (seq (drawn w' - 4) 4))).
  { intros env req w w' url tok path Hrun.
    pose proof (handlePrepareUpload_shape env req w) as H.
    destruct (body req) as [b |]; [| rewrite H in Hrun; discriminate].
    destruct (authorizeB2 env w) as [[auth | e] w1a];
      [| rewrite H in Hrun; discriminate].
    cbv zeta in H.
    destruct H as [(e & H) | [(_ & e & _ & H) | [(_ & ud & _ & _ & H)
                  | (_ & ud & fid & fp & _ & _ & _ & Hfid & H)]]];
      rewrite H in Hrun; try discriminate.
    injection Hrun as _ _ Hid _ <-.
    unfold record, draw, tick. cbn [ticks drawn Nat.pred].
    replace (drawn w1a + 4 - 4)%nat with (drawn w1a) by lia.
    congruence. }
  intros H1 H2. apply Hinv in H1, H2. rewrite H1 in H2. clear H1 Hinv.
  split.
  - change (ToString (JNum ?t) +:+ "_" +:+ ?h) with (pretty t +:+ ("_" +:+ h)) in H2.
    apply string_app_inj_tail in H2 as [Hts _].
    + apply (inj pretty) in Hts. exact Hts.
    + rewrite !string_length_app, !hex_encode_length, !length_map, !length_seq.
      reflexivity.
  - change (ToString (JNum ?t) +:+ "_" +:+ ?h) with (pretty t +:+ ("_" +:+ h)) in H2.
    apply string_app_inj_tail in H2 as [_ Hhex].
    + apply string_app_inj_tail in Hhex as [_ Hhex].
      * apply hex_encode_inj in Hhex. exact Hhex.
      * rewrite !hex_encode_length, !length_map, !length_seq. reflexivity.
    + rewrite !string_length_app, !hex_encode_length, !length_map, !length_seq.
      reflexivity.
Qed.

Lemma fileId_determines_time_and_bytes_witness :
  let w1' := snd (handlePrepareUpload demo_env (request_with raw_metadata)
                    initial_world) in
  let w2' := snd (handlePrepareUpload demo_env (request_with edited_metadata)
                    initial_world) in
  clock demo_env (pred (ticks w1')) = clock demo_env (pred (ticks w2'))
  /\ map (entropy demo_env) (seq (drawn w1' - 4) 4)
     = map (entropy demo_env) (seq (drawn w2' - 4) 4).
Proof.
  cbv zeta.
  eapply (fileId_determines_time_and_bytes demo_env demo_env
            (request_with raw_metadata) (request_with edited_metadata)
            initial_world initial_world);
    vm_compute; reflexivity.
Defined.

(** ** The download links *)

Lemma download_link_run env file :
  download_link env file =
  if nullish file then Throw (TypeError "file.fileName") else Ok (link_of env file).
Proof.
  unfold download_link. rewrite !prop_read.
  destruct (nullish file); reflexivity.
Qed.

Lemma map_result_download_link env l :
  map_result (download_link env) l =
  if forallb (fun f => negb (nullish f)) l
  then Ok (map (link_of env) l)
  else Throw (TypeError "file.fileName").
Proof.
  induction l as [|f l IH]; simpl; [reflexivity |].
  rewrite download_link_run, IH.
  destruct (nullish f); simpl; [reflexivity |].
  destruct (forallb _ l); reflexivity.
Qed.

Lemma downloadLinks_run env fl :
  downloadLinks env fl =
  if files_ok fl then Ok (map (link_of env) (default [] fl))
  else Throw (TypeError match fl with
                        | Some _ => "file.fileName"
                        | None => "files.map"
                        end).
Proof.
  destruct fl as [l |]; simpl; [apply map_result_download_link | reflexivity].
Qed.

(** [files.map(...)] of both emails: when [files] is an array without
    [undefined] or [null] entries there is exactly one link per file, in the
    order of the files, each built from its own file (an empty array gives no
    link); in every other case a [TypeError] is thrown and no list is built. *)
Theorem downloadLinks_one_per_file env fl :
  (files_ok fl = false /\ exists access, downloadLinks env fl = Throw (TypeError access))
  \/ (exists l links,
        fl = Some l /\ files_ok fl = true /\ downloadLinks env fl = Ok links
        /\ length links = length l
        /\ forall i f, l !! i = Some f -> links !! i = Some (link_of env f)).
Proof.
  rewrite downloadLinks_run. destruct (files_ok fl) eqn:Hok.
  - right. destruct fl as [l |]; [| discriminate].
    exists l, (map (link_of env) l). simpl.
    split; [reflexivity |]. split; [reflexivity |]. split; [reflexivity |].
    split; [apply length_map |].
    intros i f Hi. rewrite list_lookup_fmap, Hi. reflexivity.
  - left. eauto.
Qed.

(** ** When [complete] succeeds *)




(** ** The review email and the review map *)

Lemma review_message_html env m links id t msg :
  review_message env (Obj m) links id t = Ok msg ->
  exists notes,
    msg_html msg =
    ReviewRequestHtml (ToString (projectName m)) (ToString (clientName m))
      (ToString (editorName m)) t notes links
      {| rl_base := ToString (APP_URL (process_env env)); rl_action := "approve";
         rl_id := id; rl_project := projectName m |}
      {| rl_base := ToString (APP_URL (process_env env)); rl_action := "revise";
         rl_id := id; rl_project := projectName m |}.
Proof.
  intros H. unfold review_message in H. rbind_inv H;
    injection H as <-; simpl; eauto.
Qed.

(** A successful review completion ties the email to the map: the approve
    and the revise link carry one and the same identifier, the project name
    of the request and the application URL, and the review map holds the
    request's metadata and files under exactly that identifier. The time
    shown in the email is the clock reading taken while rendering; the
    timestamp recorded is the next reading, taken after the send. *)
Theorem review_links_match_record env fn fs (m : Metadata) fl w :
  uploadType m <> JStr "raw" ->
  let out := module_exports env (JStr "complete") (mk_request fn fs (Obj m) fl) w in
  status (fst out) = 200 ->
  exists msg notes links id,
    new_events w (snd out) = [EvSend msg true]
    /\ msg_html msg =
       ReviewRequestHtml (ToString (projectName m)) (ToString (clientName m))
         (ToString (editorName m)) (clock env (ticks w)) notes links
         {| rl_base := ToString (APP_URL (process_env env)); rl_action := "approve";
            rl_id := id; rl_project := projectName m |}
         {| rl_base := ToString (APP_URL (process_env env)); rl_action := "revise";
            rl_id := id; rl_project := projectName m |}
    /\ review_lookup (snd out) id =
       Some {| re_metadata := Obj m; re_files := fl;
               re_timestamp := clock env (S (ticks w)) |}.
Proof.
  intros Hut. cbv zeta.
  rewrite module_exports_complete, handleUploadComplete_run. simpl.
  apply strict_eq_str_false in Hut. rewrite Hut. unfold bind, ret.
  destruct (sendReviewEmail_outcome env (Obj m) fl w)
    as [(links & msg & Hmsg & ->)
       | [(e & w' & -> & _) | (e & links & msg & Hmsg & ->)]];
    [| discriminate | discriminate].
  intros _. destruct (review_message_html _ _ _ _ _ _ Hmsg) as [notes Hhtml].
  exists msg, notes, links, (hex_encode (map (entropy env) (seq (drawn w) 16))).
  split; [apply new_events_app; reflexivity |]. split; [exact Hhtml |].
  unfold review_lookup. cbn [snd reviewData set_reviewData].
  apply lookup_insert_eq.
Qed.

Lemma review_links_match_record_witness :
  let w' := snd (module_exports demo_env (JStr "complete")
                   (request_with edited_metadata) initial_world) in
  exists msg notes links id,
    new_events initial_world w' = [EvSend msg true]
    /\ msg_html msg =
       ReviewRequestHtml "Spring Promo" "Acme Co" "Jane" 1700000000000 notes links
         {| rl_base := "https://your-app.azurestaticapps.net";
            rl_action := "approve"; rl_id := id;
            rl_project := JStr "Spring Promo" |}
         {| rl_base := "https://your-app.azurestaticapps.net";
            rl_action := "revise"; rl_id := id;
            rl_project := JStr "Spring Promo" |}
    /\ review_lookup w' id =
       Some {| re_metadata := Obj edited_metadata; re_files := demo_files;
               re_timestamp := 1700000001000 |}.
Proof.
  exact (review_links_match_record demo_env (JStr "clip.mp4") (JNum 512)
           edited_metadata demo_files initial_world ltac:(discriminate) eq_refl).
Defined.

(** ** One request after the other *)

Lemma module_exports_other env action req w :
  action <> JStr "prepare" -> action <> JStr "complete" ->
  snd (module_exports env action req w) = w.
Proof.
  intros Hp Hc. unfold module_exports.
  rewrite !strict_eq_str_or_empty by discriminate.
  apply strict_eq_str_false in Hp, Hc. rewrite Hp, Hc. reflexivity.
Qed.

(** The review map after any request: as before, or as before with one
    entry written under the identifier drawn by the call. *)
Lemma module_exports_reviewData env action req w :
  let w' := snd (module_exports env action req w) in
  reviewData w' = reviewData w
  \/ exists entry,
       reviewData w' =
       Some (<[hex_encode (map (entropy env) (seq (drawn w) 16)) := entry]>
               (default ∅ (reviewData w))).
Proof.
  cbv zeta.
  destruct (decide (action = JStr "prepare")) as [-> | Hp].
  { left. rewrite module_exports_prepare.
    pose proof (handlePrepareUpload_reviewData env req w) as H.
    destruct (handlePrepareUpload env req w) as [[res | e] w']; exact H. }
  destruct (decide (action = JStr "complete")) as [-> | Hc];
    [| left; rewrite module_exports_other by assumption; reflexivity].
  rewrite module_exports_complete, handleUploadComplete_run.
  destruct (body req) as [b |]; [| left; reflexivity].
  destruct (prop _ _ (metadata b)) as [ut | e]; [| left; reflexivity].
  unfold bind, ret. destruct (strict_eq_str ut "raw").
  - left.
    destruct (sendEditorEmail_outcome env (metadata b) (files b) w)
      as [(w' & -> & msg & _ & ->) | [(e & ->) | (e & msg & _ & ->)]]; reflexivity.
  - destruct (sendReviewEmail_outcome env (metadata b) (files b) w)
      as [(links & msg & _ & ->)
         | [(e & w' & -> & _ & Hrd & _) | (e & links & msg & _ & ->)]].
    + right. eexists. reflexivity.
    + left. exact Hrd.
    + left. reflexivity.
Qed.

(** The cache after any request: as before, or a provider answer with an
    expiry 23 hours after a clock reading. *)
Lemma module_exports_cache env action req w :
  let w' := snd (module_exports env action req w) in
  (b2Auth w' = b2Auth w /\ b2AuthExpiry w' = b2AuthExpiry w)
  \/ ((exists k, b2_authorize_account env k = Ok (b2Auth w'))
      /\ exists n, b2AuthExpiry w' = clock env n + validity_window).
Proof.
  cbv zeta.
  destruct (decide (action = JStr "prepare")) as [-> | Hp].
  { rewrite module_exports_prepare.
    pose proof (handlePrepareUpload_trace env req w) as H.
    pose proof (authorizeB2_cache_effect env w) as Hc. cbv zeta in H, Hc.
    assert (Hgoal :
              let w' := snd (handlePrepareUpload env req w) in
              (b2Auth w' = b2Auth w /\ b2AuthExpiry w' = b2AuthExpiry w)
              \/ ((exists k, b2_authorize_account env k = Ok (b2Auth w'))
                  /\ exists n, b2AuthExpiry w' = clock env n + validity_window)).
    { cbv zeta. destruct H as [[-> _] | (_ & Ha & Hx & _)]; [left; auto |].
      rewrite Ha, Hx. destruct Hc as [Hc | (Hk & n & _ & Hn)]; [left; exact Hc |].
      right. eauto. }
    destruct (handlePrepareUpload env req w) as [[res | e] w']; exact Hgoal. }
  left.
  destruct (decide (action = JStr "complete")) as [-> | Hc];
    [| rewrite module_exports_other by assumption; auto].
  rewrite module_exports_complete.
  pose proof (handleUploadComplete_cache env req w) as H.
  destruct (handleUploadComplete env req w) as [[res | e] w']; exact H.
Qed.

Lemma review_lookup_step env action req w k :
  is_Some (review_lookup w k) ->
  is_Some (review_lookup (snd (module_exports env action req w)) k).
Proof.
  unfold review_lookup. intros Hk.
  destruct (module_exports_reviewData env action req w) as [-> | [entry ->]];
    [exact Hk |].
  destruct (reviewData w) as [store |]; [| destruct Hk; discriminate].
  simpl. rewrite lookup_insert. case_decide; [eauto | exact Hk].
Qed.

(** No eviction: an entry of the review map stays in the map, whatever
    requests the process serves afterwards (its value may be overwritten by
    a later review with the same identifier). *)
Theorem review_entries_are_never_removed env reqs w k :
  is_Some (review_lookup w k) ->
  is_Some (review_lookup (snd (serve env reqs w)) k).
Proof.
  revert w. induction reqs as [|[action req] reqs IH]; intros w Hk; simpl.
  - exact Hk.
  - pose proof (review_lookup_step env action req w k Hk) as Hstep.
    destruct (module_exports env action req w) as [res w1]. simpl in Hstep.
    specialize (IH w1 Hstep).
    destruct (serve env reqs w1) as [ress w2]. exact IH.
Qed.

Lemma review_entries_are_never_removed_witness :
  let w1 := snd (module_exports demo_env (JStr "complete")
                   (request_with edited_metadata) initial_world) in
  let later := [(JStr "prepare", request_with raw_metadata);
                (JStr "complete", request_with raw_metadata);
                (JStr "complete", request_with edited_metadata);
                (JUndefined, {| body := None |})] in
  is_Some (review_lookup w1 "0a1bc3d4eeeeeeeeeeeeeeeeeeeeeeee")
  /\ is_Some (review_lookup (snd (serve demo_env later w1))
                "0a1bc3d4eeeeeeeeeeeeeeeeeeeeeeee").
Proof.
  cbv zeta.
  assert (H : is_Some (review_lookup
                         (snd (module_exports demo_env (JStr "complete")
                                 (request_with edited_metadata) initial_world))
                         "0a1bc3d4eeeeeeeeeeeeeeeeeeeeeeee")).
  { vm_compute. eauto. }
  split; [exact H |].
  apply (review_entries_are_never_removed demo_env _ _ _ H).
Defined.

Lemma state_invariant_step env action req w :
  state_invariant env w ->
  state_invariant env (snd (module_exports env action req w)).
Proof.
  intros (Hkeys & Hexp & Hauth). unfold state_invariant.
  split; [| split].
  - intros k. unfold review_lookup in *.
    destruct (module_exports_reviewData env action req w) as [-> | [entry ->]];
      [apply Hkeys |].
    rewrite lookup_insert. case_decide as Hk.
    + intros _. subst k.
      split; [rewrite hex_encode_length, length_map, length_seq; reflexivity
             | apply hex_encode_lower].
    + intros Hsome. apply Hkeys.
      destruct (reviewData w); [exact Hsome |].
      simpl in Hsome. rewrite lookup_empty in Hsome. exact Hsome.
  - destruct (module_exports_cache env action req w) as [[_ ->] | [_ Hn]];
      [exact Hexp | right; exact Hn].
  - destruct (module_exports_cache env action req w) as [[-> _] | [Hk _]];
      [exact Hauth | right; exact Hk].
Qed.

Lemma state_invariant_serve env reqs w :
  state_invariant env w -> state_invariant env (snd (serve env reqs w)).
Proof.
  revert w. induction reqs as [|[action req] reqs IH]; intros w Hinv; simpl.
  - exact Hinv.
  - pose proof (state_invariant_step env action req w Hinv) as Hstep.
    destruct (module_exports env action req w) as [res w1]. simpl in Hstep.
    specialize (IH w1 Hstep).
    destruct (serve env reqs w1) as [ress w2]. exact IH.
Qed.

Lemma serve_length env reqs w : length (fst (serve env reqs w)) = length reqs.
Proof.
  revert w. induction reqs as [|[action req] reqs IH]; intros w; simpl.
  - reflexivity.
  - destruct (module_exports env action req w) as [res w1].
    specialize (IH w1). destruct (serve env reqs w1) as [ress w2].
    simpl in *. rewrite IH. reflexivity.
Qed.

(** Whatever requests a fresh process has served, in whatever environment:
    every request got one response; every key of the review map is a review
    identifier, 32 lower-case hexadecimal digits; [b2AuthExpiry] is 0 or 23
    hours after some clock reading; and [b2Auth] is [null] or an answer of
    the provider's authorization endpoint. *)
Theorem served_state_invariant env reqs :
  let out := serve env reqs initial_world in
  length (fst out) = length reqs /\ state_invariant env (snd out).
Proof.
  cbv zeta. split; [apply serve_length |].
  apply state_invariant_serve. unfold state_invariant, initial_world, review_lookup.
  simpl. split; [| auto]. intros k [x Hx]. discriminate.
Qed.

(** ** What is handed to SendGrid *)

(** [process.env.X || 'default']: a non-empty string whatever the
    environment holds, the variable when it is set and not empty. *)
Lemma env_default_nonempty o d :
  d <> EmptyString ->
  exists s, js_or (env_val o) (JStr d) = JStr s /\ s <> EmptyString
            /\ (forall v, o = Some v -> v <> EmptyString -> s = v).
Proof.
  intros Hd. unfold js_or. destruct o as [[|c v] |]; simpl.
  - exists d. repeat split; [assumption | congruence].
  - exists (String c v). repeat split; [discriminate | congruence].
  - exists d. repeat split; [assumption | discriminate].
Qed.

Lemma editor_message_addresses env md fl msg :
  editor_message env md fl = Ok msg ->
  msg_from msg = FROM_EMAIL (process_env env)
  /\ (exists s, msg_to msg = JStr s)
  /\ flow_of_html (msg_html msg) = EditorAssignment.
Proof.
  intros H. unfold editor_message in H. rewrite !prop_read in H.
  destruct (nullish md); [discriminate |]. simpl in H.
  destruct (read editor md) as [| | | | ed]; try discriminate. simpl in H.
  destruct (downloadLinks env fl); [| discriminate]. simpl in H.
  destruct (read instructions md); try discriminate. simpl in H.
  injection H as <-. simpl. eauto.
Qed.

Lemma review_message_addresses env md links id t msg :
  review_message env md links id t = Ok msg ->
  msg_from msg = FROM_EMAIL (process_env env)
  /\ msg_to msg = BOSS_EMAIL (process_env env)
  /\ flow_of_html (msg_html msg) = ReviewRequest.
Proof.
  intros H. unfold review_message in H. rewrite !prop_read in H.
  destruct (nullish md); [discriminate |]. simpl in H.
  destruct (truthy (read description md)); simpl in H.
  - destruct (as_string _ _); [| discriminate]. simpl in H.
    injection H as <-. simpl. auto.
  - injection H as <-. simpl. auto.
Qed.

(** No email leaves with a missing address: whatever the request and the
    environment variables, a message handed to SendGrid by [complete] has a
    non-empty string as sender and a string as recipient; on the review flow
    the recipient is non-empty too, and it is the address of [BOSS_EMAIL]
    when that variable is set and not empty. *)
Theorem sent_email_addresses env req w msg ok :
  EvSend msg ok ∈ new_events w (snd (module_exports env (JStr "complete") req w)) ->
  (exists s, msg_from msg = JStr s /\ s <> EmptyString)
  /\ (exists s, msg_to msg = JStr s)
  /\ (flow_of_html (msg_html msg) = ReviewRequest ->
      exists s, msg_to msg = JStr s /\ s <> EmptyString
                /\ (forall v, env_BOSS_EMAIL (process_env env) = Some v ->
                              v <> EmptyString -> s = v)).
Proof.
  assert (Hfrom : exists s, FROM_EMAIL (process_env env) = JStr s /\ s <> EmptyString).
  { destruct (env_default_nonempty (env_FROM_EMAIL (process_env env))
                "workflow@nuculture.com" ltac:(discriminate)) as (s & ? & ? & _).
    eauto. }
  assert (Hboss : exists s, BOSS_EMAIL (process_env env) = JStr s /\ s <> EmptyString
                            /\ (forall v, env_BOSS_EMAIL (process_env env) = Some v ->
                                          v <> EmptyString -> s = v)).
  { apply (env_default_nonempty (env_BOSS_EMAIL (process_env env))
             "boss@nuculture.com"). discriminate. }
  rewrite module_exports_complete, handleUploadComplete_run.
  destruct (body req) as [b |]; simpl;
    [| rewrite new_events_refl; intros Hin; inversion Hin].
  destruct (prop _ _ (metadata b)) as [ut | e]; simpl;
    [| rewrite new_events_refl; intros Hin; inversion Hin].
  unfold bind, ret. destruct (strict_eq_str ut "raw").
  - destruct (sendEditorEmail_outcome env (metadata b) (files b) w)
      as [(w' & -> & msg' & Hmsg & ->) | [(e & ->) | (e & msg' & Hmsg & ->)]]; simpl.
    + rewrite (new_events_app w _ [EvSend msg' true]) by reflexivity.
      intros Hin. apply list_elem_of_singleton in Hin. injection Hin as -> _.
      destruct (editor_message_addresses _ _ _ _ Hmsg) as (Hf & Hto & Hflow).
      rewrite Hf, Hflow. split; [exact Hfrom |]. split; [exact Hto | discriminate].
    + rewrite new_events_refl. intros Hin. inversion Hin.
    + rewrite (new_events_app w _ [EvSend msg' false]) by reflexivity.
      intros Hin. apply list_elem_of_singleton in Hin. injection Hin as -> _.
      destruct (editor_message_addresses _ _ _ _ Hmsg) as (Hf & Hto & Hflow).
      rewrite Hf, Hflow. split; [exact Hfrom |]. split; [exact Hto | discriminate].
  - destruct (sendReviewEmail_outcome env (metadata b) (files b) w)
      as [(links & msg' & Hmsg & ->)
         | [(e & w' & -> & Htr & _) | (e & links & msg' & Hmsg & ->)]]; simpl.
    + rewrite (new_events_app w _ [EvSend msg' true]) by reflexivity.
      intros Hin. apply list_elem_of_singleton in Hin. injection Hin as -> _.
      destruct (review_message_addresses _ _ _ _ _ _ Hmsg) as (Hf & Hto & _).
      rewrite Hf, Hto. destruct Hboss as (s & Hs & Hne & Hset).
      split; [exact Hfrom |]. split; [eauto |]. intros _. eauto.
    + rewrite (new_events_same_trace w w' Htr). intros Hin. inversion Hin.
    + rewrite (new_events_app w _ [EvSend msg' false]) by reflexivity.
      intros Hin. apply list_elem_of_singleton in Hin. injection Hin as -> _.
      destruct (review_message_addresses _ _ _ _ _ _ Hmsg) as (Hf & Hto & _).
      rewrite Hf, Hto. destruct Hboss as (s & Hs & Hne & Hset).
      split; [exact Hfrom |]. split; [eauto |]. intros _. eauto.
Qed.

Lemma sent_email_addresses_witness :
  exists msg,
    new_events initial_world
      (snd (module_exports demo_env (JStr "complete")
              (request_with no_metadata) initial_world)) = [EvSend msg true]
    /\ (exists s, msg_from msg = JStr s /\ s <> EmptyString)
    /\ (exists s, msg_to msg = JStr s).
Proof.
  eexists. split; [vm_compute; reflexivity |].
  edestruct (sent_email_addresses demo_env (request_with no_metadata) initial_world)
    as (Hfrom & Hto & _).
  { vm_compute. left. }
  split; [exact Hfrom | exact Hto].
Defined.

(** The editor email, piece by piece: it greets the part of [editor] before
    the ['@'], names client, shoot date and footage type as the request
    gives them, shows the music type only when it is truthy, shows the
    instructions with every line feed turned into a line break, lists one
    download link per file in order, and points at [APP_URL]. *)
Theorem editor_email_content env (m : Metadata) fl msg :
  editor_message env (Obj m) fl = Ok msg ->
  exists ed ins l,
    editor m = JStr ed /\ instructions m = JStr ins /\ fl = Some l
    /\ msg_html msg =
       EditorAssignmentHtml (split_head "@" ed) (ToString (clientName m))
         (ToString (clientName m)) (ToString (shootDate m))
         (ToString (footageType m))
         (if truthy (musicType m) then Some (ToString (musicType m)) else None)
         (replace_newlines ins) (map (link_of env) l)
         (ToString (APP_URL (process_env env))).
Proof.
  intros H. unfold editor_message in H. simpl in H.
  destruct (editor m) as [| | | | ed]; try discriminate. simpl in H.
  rewrite downloadLinks_run in H.
  destruct (files_ok fl) eqn:Hok; [| discriminate]. simpl in H.
  destruct (instructions m) as [| | | | ins]; try discriminate. simpl in H.
  injection H as <-. destruct fl as [l |]; [| discriminate].
  exists ed, ins, l. simpl. auto.
Qed.

Lemma editor_email_content_witness :
  exists msg,
    editor_message demo_env (Obj raw_metadata) demo_files = Ok msg
    /\ msg_html msg =
       EditorAssignmentHtml "jane" "Acme Co" "Acme Co" "2024-05-01" "Wedding" None
         "Cut to 3 minutes"
         (map (link_of demo_env) (default [] demo_files))
         "https://your-app.azurestaticapps.net".
Proof.
  eexists. split; [reflexivity |].
  destruct (editor_email_content demo_env raw_metadata demo_files _ eq_refl)
    as (ed & ins & l & Hed & Hins & Hl & Hhtml).
  injection Hed as <-. injection Hins as <-. injection Hl as <-. exact Hhtml.
Defined.
